(** * Games-market dashboard: the cleaning, filtering and grouping pipeline

    A shallow embedding of [Data_Analyst_Analytics_company.py]:
    [clean_data], the boolean-mask selection shared by the three callbacks,
    [update_game_count_text] and the grouping step of
    [update_game_release_area_plot].

    A data frame is the list of its rows, in row order.  A finite float is
    a rational: the code only compares such numbers and casts them to
    integers, and both are exact on floats.  A cell of the score columns is
    NaN, a finite number, an infinity or a Python string.  A cell of the
    year column is [None] for NaN and [Some x] for a finite number: a table
    with an infinite year is not among the tables of this development (on
    such a table line 25 raises when the year passes line 22, and the row
    is dropped by line 22 otherwise), and what is proved of the cleaning
    pass is stated so that it holds of such tables too.  Strings are byte
    strings, whose order is the order of Python's [str] on the code points
    they encode. *)

From Stdlib Require Import String Ascii ZArith QArith Bool Lia Sorted.
From Stdlib Require Import DecimalString DecimalNat DecimalZ List Permutation.
Import ListNotations.
Close Scope Q_scope.

(** ** Data model *)

(** A cell of a score column or of another column that the program does
    not name: NaN, a finite number, plus or minus infinity, or a string. *)
Inductive cell : Type :=
| NaN
| Num (x : Q)
| Inf (negative : bool)
| Str (s : string).

(** A Python float, as [float(s)] returns it. *)
Inductive pyfloat : Type :=
| float_nan
| float_inf (negative : bool)
| float_num (x : Q).

(** One row of [games.csv].  The six named columns are those the program
    refers to; [Others] holds the cells of the remaining columns of the
    file, which the program never names but [dropna()] inspects. *)
Record Row : Type := mkRow {
  Platform : option string;
  Year_of_Release : option Q;
  Genre : option string;
  Critic_Score : cell;
  User_Score : cell;
  Rating : option string;
  Others : list cell
}.

Definition DataFrame : Type := list Row.

(** Column assignment [dataframe.loc[:, col] = values], one row at a time. *)
Definition set_User_Score (r : Row) (c : cell) : Row :=
  mkRow (Platform r) (Year_of_Release r) (Genre r) (Critic_Score r) c
        (Rating r) (Others r).

Definition set_Year_of_Release (r : Row) (y : option Q) : Row :=
  mkRow (Platform r) y (Genre r) (Critic_Score r) (User_Score r)
        (Rating r) (Others r).

(** One row of [grouped_df]: the two key columns and the size of the
    group. *)
Record GroupRow : Type := mkGroup {
  group_year : Q;
  group_platform : string;
  Number_of_Games : nat
}.

(** ** Exceptions

    A computation that may raise returns [None]. *)
Definition bind {A B : Type} (m : option A) (k : A -> option B) : option B :=
  match m with
  | Some a => k a
  | None => None
  end.

Notation "x <- m ;; k" := (bind m (fun x => k))
  (at level 61, m at next level, right associativity).

Fixpoint mapM {A B : Type} (f : A -> option B) (l : list A) : option (list B) :=
  match l with
  | [] => Some []
  | a :: l' => b <- f a ;; bs <- mapM f l' ;; Some (b :: bs)
  end.

(** ** The pandas operations the program calls *)
Module Pandas.

(** [float >= int] inside [query]: NaN compares false. *)
Definition ge_int (y : option Q) (threshold : Z) : bool :=
  match y with
  | Some x => Qle_bool (inject_Z threshold) x
  | None => false
  end.

(** [Series.replace('tbd', np.nan)] on one cell. *)
Definition replace_tbd (c : cell) : cell :=
  match c with
  | Str s => if (s =? "tbd")%string then NaN else c
  | _ => c
  end.

Definition of_float (f : pyfloat) : cell :=
  match f with
  | float_nan => NaN
  | float_inf negative => Inf negative
  | float_num x => Num x
  end.

(** Truncation toward zero. *)
Definition Qtrunc (x : Q) : Z := Z.quot (Qnum x) (Zpos (Qden x)).

(** The least 64-bit integer, -2^63. *)
Definition INT64_MIN : Z := (-9223372036854775808)%Z.

(** 2^63, one more than the greatest 64-bit integer. *)
Definition INT64_END : Z := 9223372036854775808%Z.

(** The cast of a finite float64 to int64 (numpy on x86-64): truncation
    toward zero, and [INT64_MIN] for a value whose truncation does not fit
    in 64 bits. *)
Definition int64_cast (x : Q) : Z :=
  let t := Qtrunc x in
  if ((INT64_MIN <=? t) && (t <? INT64_END))%Z then t else INT64_MIN.

(** [Series.astype(int)] on one cell of the year column: NaN cannot be
    cast and raises, a finite number is cast to int64.  (An infinity raises
    as NaN does; it is not a year of this development.) *)
Definition astype_int (y : option Q) : option (option Q) :=
  match y with
  | Some x => Some (Some (inject_Z (int64_cast x)))
  | None => None
  end.

Definition notna (c : cell) : bool :=
  match c with
  | NaN => false
  | _ => true
  end.

Definition notnull {A : Type} (o : option A) : bool :=
  match o with
  | Some _ => true
  | None => false
  end.

(** The row test of [DataFrame.dropna()]: no column holds a missing value. *)
Definition complete (r : Row) : bool :=
  notnull (Platform r) && notnull (Year_of_Release r) && notnull (Genre r)
  && notna (Critic_Score r) && notna (User_Score r) && notnull (Rating r)
  && forallb notna (Others r).

Definition dropna (dataframe : DataFrame) : DataFrame :=
  filter complete dataframe.

(** [Series.isin(values)] on one cell of a string column. *)
Definition isin (c : option string) (values : list string) : bool :=
  match c with
  | Some s => existsb (String.eqb s) values
  | None => false
  end.

(** [Series.between(left, right)], both ends inclusive, on one cell. *)
Definition between (c : option Q) (left right : Q) : bool :=
  match c with
  | Some x => Qle_bool left x && Qle_bool x right
  | None => false
  end.

(** The order of the group keys: by year, then by platform name. *)
Definition key_compare (y1 : Q) (p1 : string) (y2 : Q) (p2 : string) : comparison :=
  match Qcompare y1 y2 with
  | Eq => String.compare p1 p2
  | c => c
  end.

(** One more member for the group of key [(y, p)], in a list of groups kept
    in key order. *)
Fixpoint count_key (y : Q) (p : string) (groups : list GroupRow) : list GroupRow :=
  match groups with
  | [] => [mkGroup y p 1]
  | g :: gs =>
      match key_compare y p (group_year g) (group_platform g) with
      | Lt => mkGroup y p 1 :: groups
      | Eq => mkGroup (group_year g) (group_platform g) (S (Number_of_Games g)) :: gs
      | Gt => g :: count_key y p gs
      end
  end.

(** A row joins a group only when both of its keys are present
    ([dropna=True], the default of [groupby]). *)
Definition count_row (groups : list GroupRow) (r : Row) : list GroupRow :=
  match Year_of_Release r, Platform r with
  | Some y, Some p => count_key y p groups
  | _, _ => groups
  end.

(** [df.groupby(['Year_of_Release', 'Platform']).size().reset_index(name=
    'Number_of_Games')]: one row per key that occurs, in key order
    ([sort=True], the default of [groupby]), with the number of rows that
    carry the key. *)
Definition groupby_size (dataframe : DataFrame) : list GroupRow :=
  fold_left count_row dataframe [].

End Pandas.

(** ** DatasetCleaner: [clean_data] *)
Section Cleaner.

(** Python's [float(s)] on a string: [None] when it raises [ValueError],
    the float otherwise. *)
Variable py_float : string -> option pyfloat.

(** [Series.astype(float)] on one cell of an object column. *)
Definition astype_float (c : cell) : option cell :=
  match c with
  | NaN => Some NaN
  | Num x => Some (Num x)
  | Inf negative => Some (Inf negative)
  | Str s => f <- py_float s ;; Some (Pandas.of_float f)
  end.

(** Line 22: [dataframe.query(f'Year_of_Release >= {threshold}')]. *)
Definition query_year (dataframe : DataFrame) (threshold : Z) : DataFrame :=
  filter (fun r => Pandas.ge_int (Year_of_Release r) threshold) dataframe.

(** Line 24: the [User_Score] column with 'tbd' replaced by NaN and
    everything cast to float. *)
Definition assign_User_Score (dataframe : DataFrame) : option DataFrame :=
  mapM (fun r =>
          c <- astype_float (Pandas.replace_tbd (User_Score r)) ;;
          Some (set_User_Score r c))
       dataframe.

(** Line 25: the [Year_of_Release] column cast to int. *)
Definition assign_Year_of_Release (dataframe : DataFrame) : option DataFrame :=
  mapM (fun r =>
          y <- Pandas.astype_int (Year_of_Release r) ;;
          Some (set_Year_of_Release r y))
       dataframe.

Definition clean_data (dataframe : DataFrame) (threshold : Z) : option DataFrame :=
  let dataframe := query_year dataframe threshold in
  dataframe <- assign_User_Score dataframe ;;
  dataframe <- assign_Year_of_Release dataframe ;;
  Some (Pandas.dropna dataframe).

End Cleaner.

(** An instance of [float] for the examples: it reads, after an optional
    sign, a decimal literal such as "8.5", "7" or ".5", "inf", "infinity"
    and "nan".  It rejects every other string, among them some that
    Python's [float] reads (exponents, blanks around the number, capital
    letters). *)
Module DecimalFloat.

Definition digit (c : ascii) : option Z :=
  let n := Z.of_N (N_of_ascii c) in
  if ((48 <=? n) && (n <=? 57))%Z then Some (n - 48)%Z else None.

Fixpoint scan (s : string) (dot any : bool) (m : Z) (d : positive) : option Q :=
  match s with
  | EmptyString => if any then Some (m # d)%Q else None
  | String c s' =>
      if Ascii.eqb c "."%char then
        if dot then None else scan s' true any m d
      else
        match digit c with
        | Some k =>
            scan s' dot true (10 * m + k)%Z (if dot then (10 * d)%positive else d)
        | None => None
        end
  end.

Definition unsigned (s : string) : option pyfloat :=
  if (s =? "nan")%string then Some float_nan
  else if ((s =? "inf") || (s =? "infinity"))%string then Some (float_inf false)
  else x <- scan s false false 0%Z 1%positive ;; Some (float_num x).

Definition negate (f : pyfloat) : pyfloat :=
  match f with
  | float_nan => float_nan
  | float_inf negative => float_inf (negb negative)
  | float_num x => float_num (- x)%Q
  end.

Definition float (s : string) : option pyfloat :=
  match s with
  | String "-" s' => f <- unsigned s' ;; Some (negate f)
  | String "+" s' => unsigned s'
  | _ => unsigned s
  end.

End DecimalFloat.

(** ** FilterEngine and AggregationEngine: the callbacks *)
Section Dashboard.

(** The module-level table the callbacks read (line 56). *)
Variable df_cleaned : DataFrame.

(** The boolean mask of lines 138-139, 151-152 and 174-175, on one row. *)
Definition mask (genres ratings : list string) (year_range : Q * Q) (r : Row) : bool :=
  Pandas.isin (Genre r) genres && Pandas.isin (Rating r) ratings
  && Pandas.between (Year_of_Release r) (fst year_range) (snd year_range).

Definition filtered_df (genres ratings : list string) (year_range : Q * Q) : DataFrame :=
  filter (mask genres ratings year_range) df_cleaned.

Definition game_count (genres ratings : list string) (year_range : Q * Q) : nat :=
  length (filtered_df genres ratings year_range).

Definition update_game_count_text (genres ratings : list string) (year_range : Q * Q) : string :=
  ("Number of the selected games is: "
   ++ NilEmpty.string_of_uint (Nat.to_uint (game_count genres ratings year_range)))%string.

(** Line 153 of [update_game_release_area_plot]. *)
Definition grouped_df (genres ratings : list string) (year_range : Q * Q) : list GroupRow :=
  Pandas.groupby_size (filtered_df genres ratings year_range).

End Dashboard.

(** ** Vocabulary of the properties *)

(** The year of a row is the integer [z]. *)
Definition year_is (r : Row) (z : Z) : Prop :=
  Year_of_Release r = Some (inject_Z z).

(** The cell is a float other than NaN: a finite number or an infinity. *)
Definition is_float (c : cell) : Prop :=
  (exists u, c = Num u) \/ (exists negative, c = Inf negative).

(** No field of the row is missing, and the user score is a float. *)
Definition no_missing (r : Row) : Prop :=
  (exists y, Year_of_Release r = Some y) /\
  (exists g, Genre r = Some g) /\
  (exists a, Rating r = Some a) /\
  (exists p, Platform r = Some p) /\
  Critic_Score r <> NaN /\
  is_float (User_Score r).

(** What [clean_data] establishes for every row: a year that is a 64-bit
    integer, a float for user score and no missing cell. *)
Definition cleaned_shape (r : Row) : Prop :=
  (exists z, year_is r z /\ (Pandas.INT64_MIN <= z < Pandas.INT64_END)%Z) /\
  no_missing r /\
  Pandas.complete r = true.

(** A cleaned row whose year is at or above the threshold. *)
Definition cleaned_row (threshold : Z) (r : Row) : Prop :=
  (exists z, year_is r z /\ (threshold <= z)%Z) /\
  cleaned_shape r.

(** Every year of the table is below 2^63, the end of the 64-bit
    integers. *)
Definition years_below_2_63 (t : DataFrame) : Prop :=
  Forall (fun r => forall y, Year_of_Release r = Some y ->
                             (y < inject_Z Pandas.INT64_END)%Q) t.

Definition genre_in (r : Row) (genres : list string) : Prop :=
  exists g, Genre r = Some g /\ In g genres.

Definition rating_in (r : Row) (ratings : list string) : Prop :=
  exists a, Rating r = Some a /\ In a ratings.

Definition year_in (r : Row) (year_range : Q * Q) : Prop :=
  exists y, Year_of_Release r = Some y /\
            (fst year_range <= y)%Q /\ (y <= snd year_range)%Q.

(** A genre (a rating) carried by some row of the table. *)
Definition genre_present (t : DataFrame) (g : string) : Prop :=
  exists r, In r t /\ Genre r = Some g.

Definition rating_present (t : DataFrame) (a : string) : Prop :=
  exists r, In r t /\ Rating r = Some a.

(** The selection names a genre or a rating that no row of the table
    carries. *)
Definition refers_to_absent (t : DataFrame) (genres ratings : list string) : Prop :=
  (exists g, In g genres /\ ~ genre_present t g) \/
  (exists a, In a ratings /\ ~ rating_present t a).

(** No selected genre, or no selected rating, is carried by a row of the
    table. *)
Definition all_absent (t : DataFrame) (genres ratings : list string) : Prop :=
  (forall g, In g genres -> ~ genre_present t g) \/
  (forall a, In a ratings -> ~ rating_present t a).

(** Containment of inclusive year ranges. *)
Definition range_within (r1 r2 : Q * Q) : Prop :=
  forall y : Q, (fst r1 <= y)%Q /\ (y <= snd r1)%Q ->
                (fst r2 <= y)%Q /\ (y <= snd r2)%Q.

(** Strict order of two group keys: year first, platform name second. *)
Definition key_lt (g1 g2 : GroupRow) : Prop :=
  (group_year g1 < group_year g2)%Q \/
  ((group_year g1 == group_year g2)%Q /\
   (group_platform g1 ?= group_platform g2)%string = Lt).

(** The key of the group is the pair of keys of some row of [subset], and
    the group is not empty. *)
Definition group_witnessed (subset : DataFrame) (g : GroupRow) : Prop :=
  (1 <= Number_of_Games g)%nat /\
  exists r, In r subset /\ Year_of_Release r = Some (group_year g)
            /\ Platform r = Some (group_platform g).

Definition year_le (g1 g2 : GroupRow) : Prop :=
  (group_year g1 <= group_year g2)%Q.

(** Position of the first row of [subset] whose platform is [p]. *)
Fixpoint first_seen (p : string) (subset : DataFrame) : option nat :=
  match subset with
  | [] => None
  | r :: rest =>
      if Pandas.isin (Platform r) [p] then Some 0
      else option_map S (first_seen p rest)
  end.

Definition seen_before (subset : DataFrame) (g1 g2 : GroupRow) : bool :=
  match first_seen (group_platform g1) subset,
        first_seen (group_platform g2) subset with
  | Some a, Some b => a <? b
  | _, _ => false
  end.

(** Groups of one year come in the order in which their platforms are first
    met in [subset]. *)
Fixpoint ties_first_seen (subset : DataFrame) (groups : list GroupRow) : bool :=
  match groups with
  | [] => true
  | g :: gs =>
      forallb (fun g' =>
                 implb (Qeq_bool (group_year g) (group_year g'))
                       (seen_before subset g g')) gs
      && ties_first_seen subset gs
  end.

Definition sum_counts (groups : list GroupRow) : nat :=
  fold_right (fun g n => Number_of_Games g + n) 0 groups.

(** The rows of [subset] that carry the key [(y, p)]. *)
Definition has_key (y : Q) (p : string) (r : Row) : bool :=
  match Year_of_Release r, Platform r with
  | Some y', Some p' =>
      match Pandas.key_compare y p y' p' with
      | Eq => true
      | _ => false
      end
  | _, _ => false
  end.

Definition group_size (y : Q) (p : string) (subset : DataFrame) : nat :=
  length (filter (has_key y p) subset).

(** The size recorded for the key [(y, p)] in a list of groups, 0 when the
    key has no group. *)
Fixpoint size_of (y : Q) (p : string) (groups : list GroupRow) : nat :=
  match groups with
  | [] => 0
  | g :: gs =>
      match Pandas.key_compare y p (group_year g) (group_platform g) with
      | Eq => Number_of_Games g
      | _ => size_of y p gs
      end
  end.

(** ** The table of the scenarios *)
Module Scenario.

Local Open Scope string_scope.

Definition game (year : Z) (genre rating platform : string) (critic : Z) (user : string) : Row :=
  mkRow (Some platform) (Some (inject_Z year)) (Some genre)
        (Num (inject_Z critic)) (Str user) (Some rating) [].

Definition raw : DataFrame :=
  [ game 2005 "Action" "E" "PS2" 80 "8.5";
    game 2010 "Action" "E" "X360" 90 "9.0";
    game 2010 "RPG" "M" "PS3" 70 "7.0";
    game 1998 "Action" "E" "PS" 75 "8.0";
    game 2012 "Sports" "E" "Wii" 60 "tbd";
    mkRow (Some "DS") None (Some "Puzzle") NaN NaN None [] ].

Definition row (year : Z) (genre rating platform : string) (critic : Z) (user : Q) : Row :=
  mkRow (Some platform) (Some (inject_Z year)) (Some genre)
        (Num (inject_Z critic)) (Num user) (Some rating) [].

Definition cleaned : DataFrame :=
  [ row 2005 "Action" "E" "PS2" 80 (85 # 10);
    row 2010 "Action" "E" "X360" 90 (90 # 10);
    row 2010 "RPG" "M" "PS3" 70 (70 # 10) ].

(** A release year of 10^19, beyond the 64-bit integers. *)
Definition far_future : DataFrame :=
  [ game 10000000000000000000 "Action" "E" "PS2" 80 "8.5" ].

(** The same row as [clean_data] returns it, its year now -2^63. *)
Definition far_future_cleaned : DataFrame :=
  [ row Pandas.INT64_MIN "Action" "E" "PS2" 80 (85 # 10) ].

(** Two platforms of one year, the later name first. *)
Definition two_platforms : DataFrame :=
  [ row 2010 "Action" "E" "X360" 90 (90 # 10);
    row 2010 "Action" "E" "PS3" 70 (70 # 10) ].

End Scenario.


(** ** The layout: what the widgets are built from (lines 64-128) *)

(** [Series.unique()]: the distinct cells in the order of their first
    appearance, for an equality test [eqb] on cells; NaN is one of the
    values. *)
Module Series.

Definition cell_eqb (a b : option string) : bool :=
  match a, b with
  | Some x, Some y => String.eqb x y
  | None, None => true
  | _, _ => false
  end.

Definition float_eqb (a b : option Q) : bool :=
  match a, b with
  | Some x, Some y => Qeq_bool x y
  | None, None => true
  | _, _ => false
  end.

Fixpoint unique {A : Type} (eqb : A -> A -> bool) (col : list A) : list A :=
  match col with
  | [] => []
  | c :: rest => c :: filter (fun d => negb (eqb c d)) (unique eqb rest)
  end.

(** [Series.min()] and [Series.max()] skip NaN and are NaN when nothing is
    left. *)
Fixpoint min (col : list (option Q)) : option Q :=
  match col with
  | [] => None
  | None :: rest => min rest
  | Some x :: rest =>
      match min rest with
      | None => Some x
      | Some m => Some (if Qle_bool x m then x else m)
      end
  end.

Fixpoint max (col : list (option Q)) : option Q :=
  match col with
  | [] => None
  | None :: rest => max rest
  | Some x :: rest =>
      match max rest with
      | None => Some x
      | Some m => Some (if Qle_bool m x then x else m)
      end
  end.

End Series.

Module Numpy.

(** The order of [np.sort] on floats: ascending, NaN last. *)
Definition le (a b : option Q) : bool :=
  match a, b with
  | Some x, Some y => Qle_bool x y
  | _, None => true
  | None, Some _ => false
  end.

Fixpoint insert (a : option Q) (l : list (option Q)) : list (option Q) :=
  match l with
  | [] => [a]
  | b :: l' => if le a b then a :: l else b :: insert a l'
  end.

Definition sort (l : list (option Q)) : list (option Q) :=
  fold_right insert [] l.

End Numpy.

Module Python.

(** [int(x)] on a cell of the year column: truncation of a finite number,
    without bound; it raises on NaN.  (It raises on an infinity too, which
    is not a year of this development.) *)
Definition int (x : option Q) : option Z :=
  match x with
  | Some y => Some (Pandas.Qtrunc y)
  | None => None
  end.

(** [str(n)] on an integer. *)
Definition str (n : Z) : string := NilZero.string_of_int (Z.to_int n).

(** [d[k] = v] on a dict, kept as the list of its items in insertion
    order: a key already there keeps its place. *)
Fixpoint dict_set (d : list (string * string)) (k v : string) : list (string * string) :=
  match d with
  | [] => [(k, v)]
  | (k', v') :: d' =>
      if (k' =? k)%string then (k, v) :: d' else (k', v') :: dict_set d' k v
  end.

End Python.

Module Layout.

Record DropdownOption : Type := mkOption {
  label : option string;
  value : option string
}.

Record Dropdown : Type := mkDropdown {
  options : list DropdownOption;
  selected : list string;
  multi : bool
}.

Record RangeSlider : Type := mkRangeSlider {
  slider_min : option Q;
  slider_max : option Q;
  slider_value : option Q * option Q;
  step : Z;
  marks : list (string * string)
}.

Section Widgets.

Variable df_cleaned : DataFrame.

(** Lines 82-88. *)
Definition genres_filter : Dropdown :=
  mkDropdown
    (map (fun genre => mkOption genre genre)
         (Series.unique Series.cell_eqb (map Genre df_cleaned)))
    [] true.

(** Lines 92-98. *)
Definition ratings_filter : Dropdown :=
  mkDropdown
    (map (fun rating => mkOption rating rating)
         (Series.unique Series.cell_eqb (map Rating df_cleaned)))
    [] true.

(** Lines 124-125: the dict comprehension of the marks. *)
Definition year_marks : option (list (string * string)) :=
  years <- mapM Python.int
             (Numpy.sort (Series.unique Series.float_eqb
                                        (map Year_of_Release df_cleaned))) ;;
  Some (fold_left
          (fun d release_year =>
             Python.dict_set d (Python.str release_year) (Python.str release_year))
          years []).

(** Lines 118-126. *)
Definition year_range_filter : option RangeSlider :=
  let lo := Series.min (map Year_of_Release df_cleaned) in
  let hi := Series.max (map Year_of_Release df_cleaned) in
  m <- year_marks ;;
  Some (mkRangeSlider lo hi (lo, hi) 1 m).

(** The three columns that [px.scatter] reads from [filtered_df], row by
    row (line 176): x, y and colour. *)
Definition scatter_points (genres ratings : list string) (year_range : Q * Q)
  : list (cell * cell * option string) :=
  map (fun r => (User_Score r, Critic_Score r, Genre r))
      (filtered_df df_cleaned genres ratings year_range).

End Widgets.

End Layout.

(** ** Vocabulary of the further properties *)

(** [l1] is [l2] with some elements left out, the others in their order. *)
Inductive subseq {A : Type} : list A -> list A -> Prop :=
| subseq_nil : subseq [] []
| subseq_keep (a : A) (l1 l2 : list A) : subseq l1 l2 -> subseq (a :: l1) (a :: l2)
| subseq_skip (a : A) (l1 l2 : list A) : subseq l1 l2 -> subseq l1 (a :: l2).

(** The user score of the row is the sentinel 'tbd'. *)
Definition is_tbd (r : Row) : bool :=
  match User_Score r with
  | Str s => (s =? "tbd")%string
  | _ => false
  end.

(** The row is at or above the threshold and its user score is a string,
    other than 'tbd', that [float] rejects. *)
Definition unreadable (py_float : string -> option pyfloat) (threshold : Z)
           (r : Row) : Prop :=
  Pandas.ge_int (Year_of_Release r) threshold = true /\
  exists s, User_Score r = Str s /\ s <> "tbd"%string /\ py_float s = None.

(** [r'] is [r] with its year cast to a 64-bit integer and its user score
    turned into a float, which is not NaN; the other columns are those of
    [r]. *)
Definition cleaned_from (py_float : string -> option pyfloat) (r r' : Row) : Prop :=
  Platform r' = Platform r /\ Genre r' = Genre r /\
  Critic_Score r' = Critic_Score r /\ Rating r' = Rating r /\
  Others r' = Others r /\
  (exists y, Year_of_Release r = Some y
             /\ Year_of_Release r' = Some (inject_Z (Pandas.int64_cast y))) /\
  is_float (User_Score r') /\
  (User_Score r = User_Score r' \/
   exists s f, User_Score r = Str s /\ s <> "tbd"%string
               /\ py_float s = Some f /\ User_Score r' = Pandas.of_float f).

(** ** Sanity checks on the scenario table *)

Example clean_scenario :
  clean_data DecimalFloat.float Scenario.raw 2000 = Some Scenario.cleaned.
Proof. reflexivity. Qed.

Example count_scenario :
  update_game_count_text Scenario.cleaned ["Action"%string] ["E"%string] (2000 # 1, 2016 # 1)%Q
  = "Number of the selected games is: 2"%string.
Proof. reflexivity. Qed.

Example series_scenario :
  grouped_df Scenario.cleaned ["Action"%string] ["E"%string] (2000 # 1, 2016 # 1)%Q
  = [mkGroup (2005 # 1) "PS2" 1; mkGroup (2010 # 1) "X360" 1].
Proof. reflexivity. Qed.

Example late_range_scenario :
  filtered_df Scenario.cleaned ["Action"%string] ["E"%string] (2011 # 1, 2016 # 1)%Q = [].
Proof. reflexivity. Qed.

Example two_platforms_cleaned :
  clean_data DecimalFloat.float Scenario.two_platforms 2000
  = Some Scenario.two_platforms.
Proof. reflexivity. Qed.

Example two_platforms_series :
  grouped_df Scenario.two_platforms ["Action"%string] ["E"%string] (2000 # 1, 2016 # 1)%Q
  = [mkGroup (2010 # 1) "PS3" 1; mkGroup (2010 # 1) "X360" 1].
Proof. reflexivity. Qed.

Example absent_genre_scenario :
  filtered_df Scenario.cleaned ["Action"%string; "Strategy"%string] ["E"%string]
              (2000 # 1, 2016 # 1)%Q
  = filtered_df Scenario.cleaned ["Action"%string] ["E"%string] (2000 # 1, 2016 # 1)%Q.
Proof. reflexivity. Qed.

Example far_future_wraps :
  clean_data DecimalFloat.float Scenario.far_future 2000
  = Some Scenario.far_future_cleaned.
Proof. reflexivity. Qed.

Example far_future_cleaned_again :
  clean_data DecimalFloat.float Scenario.far_future_cleaned 2000 = Some [].
Proof. reflexivity. Qed.

Example infinite_score_kept :
  clean_data DecimalFloat.float
    [Scenario.game 2005 "Action" "E" "PS2" 80 "inf"] 2000
  = Some [mkRow (Some "PS2"%string) (Some (inject_Z 2005)) (Some "Action"%string)
                (Num (inject_Z 80)) (Inf false) (Some "E"%string) []].
Proof. reflexivity. Qed.

Example unparsable_score_raises :
  clean_data DecimalFloat.float
    [Scenario.game 2005 "Action" "E" "PS2" 80 "n/a"] 2000 = None.
Proof. reflexivity. Qed.

(** ** Lists and the exception monad *)

Lemma bind_Some {A B : Type} (m : option A) (k : A -> option B) (b : B) :
  bind m k = Some b <-> exists a, m = Some a /\ k a = Some b.
Proof.
  destruct m as [a|]; simpl; split.
  - intros H. exists a. auto.
  - intros [a' [E H]]. injection E as ->. exact H.
  - discriminate.
  - intros [a' [E _]]. discriminate.
Qed.

Lemma mapM_In {A B : Type} (f : A -> option B) (l : list A) (l' : list B) :
  mapM f l = Some l' ->
  forall b, In b l' -> exists a, In a l /\ f a = Some b.
Proof.
  revert l'. induction l as [|a l IH]; simpl; intros l' H b Hb.
  - injection H as <-. contradiction.
  - apply bind_Some in H. destruct H as [b0 [Hb0 H]].
    apply bind_Some in H. destruct H as [bs [Hbs H]].
    injection H as <-. destruct Hb as [<-|Hb].
    + exists a. auto.
    + destruct (IH bs Hbs b Hb) as [a' [Ha' Hf]]. exists a'. auto.
Qed.

Lemma mapM_fixed {A : Type} (f : A -> option A) (l : list A) :
  Forall (fun a => f a = Some a) l -> mapM f l = Some l.
Proof.
  induction 1 as [|a l Ha _ IH]; simpl.
  - reflexivity.
  - rewrite Ha. simpl. rewrite IH. reflexivity.
Qed.

Lemma mapM_total {A B : Type} (f : A -> option B) (l : list A) :
  Forall (fun a => exists b, f a = Some b) l -> exists l', mapM f l = Some l'.
Proof.
  induction 1 as [|a l [b Hb] _ [l' IH]]; simpl.
  - exists []. reflexivity.
  - exists (b :: l'). rewrite Hb. simpl. rewrite IH. reflexivity.
Qed.

Lemma filter_fixed {A : Type} (f : A -> bool) (l : list A) :
  Forall (fun a => f a = true) l -> filter f l = l.
Proof.
  induction 1 as [|a l Ha _ IH]; simpl.
  - reflexivity.
  - rewrite Ha, IH. reflexivity.
Qed.

Lemma filter_none {A : Type} (f : A -> bool) (l : list A) :
  (forall a, In a l -> f a = false) -> filter f l = [].
Proof.
  induction l as [|a l IH]; simpl; intros H.
  - reflexivity.
  - rewrite (H a (or_introl eq_refl)). apply IH. intros b Hb. apply H. auto.
Qed.

(** ** Truncation *)

Lemma Qtrunc_lower (t : Z) (x : Q) :
  (inject_Z t <= x)%Q -> (t <= Pandas.Qtrunc x)%Z.
Proof.
  destruct x as [n d]. unfold Qle, Pandas.Qtrunc. simpl. intros H.
  destruct (Z_le_gt_dec 0 n) as [Hn|Hn].
  - rewrite Z.quot_div_nonneg by lia.
    apply Z.div_le_lower_bound; lia.
  - replace n with (- (- n))%Z by lia.
    rewrite Z.quot_opp_l by lia.
    rewrite Z.quot_div_nonneg by lia.
    assert (- n / Z.pos d <= - t)%Z; [|lia].
    apply Z.div_le_upper_bound; lia.
Qed.

Lemma Qtrunc_inject_Z (z : Z) : Pandas.Qtrunc (inject_Z z) = z.
Proof. unfold Pandas.Qtrunc. simpl. apply Z.quot_1_r. Qed.



(** A number below a positive integer bound has its truncation below it. *)
Lemma Qtrunc_below (b : Z) (x : Q) :
  (0 < b)%Z -> (x < inject_Z b)%Q -> (Pandas.Qtrunc x < b)%Z.
Proof.
  destruct x as [n d]. unfold Qlt, Pandas.Qtrunc. simpl. intros Hb H.
  destruct (Z_le_gt_dec 0 n) as [Hn|Hn].
  - rewrite Z.quot_div_nonneg by lia.
    apply Z.div_lt_upper_bound; lia.
  - assert (Z.quot n (Z.pos d) <= 0)%Z; [|lia].
    apply Z.quot_le_upper_bound; lia.
Qed.

(** ** The cast to 64-bit integers *)

Lemma int64_cast_range (x : Q) :
  (Pandas.INT64_MIN <= Pandas.int64_cast x < Pandas.INT64_END)%Z.
Proof.
  unfold Pandas.int64_cast.
  destruct (Z.leb_spec Pandas.INT64_MIN (Pandas.Qtrunc x));
    destruct (Z.ltb_spec (Pandas.Qtrunc x) Pandas.INT64_END); simpl;
    unfold Pandas.INT64_MIN, Pandas.INT64_END in *; lia.
Qed.

Lemma int64_cast_inject_Z (z : Z) :
  (Pandas.INT64_MIN <= z < Pandas.INT64_END)%Z ->
  Pandas.int64_cast (inject_Z z) = z.
Proof.
  intros [H1 H2]. unfold Pandas.int64_cast. rewrite Qtrunc_inject_Z.
  apply Z.leb_le in H1. apply Z.ltb_lt in H2. rewrite H1, H2. reflexivity.
Qed.

(** Below 2^63 the cast keeps a number at or above an integer at or above
    that integer. *)
Lemma int64_cast_lower (t : Z) (x : Q) :
  (inject_Z t <= x)%Q -> (x < inject_Z Pandas.INT64_END)%Q ->
  (t <= Pandas.int64_cast x)%Z.
Proof.
  intros Hle Hlt. unfold Pandas.int64_cast.
  assert (H1 := Qtrunc_lower _ _ Hle).
  assert (H2 : (Pandas.Qtrunc x < Pandas.INT64_END)%Z).
  { apply Qtrunc_below; [reflexivity | exact Hlt]. }
  destruct (Z.leb_spec Pandas.INT64_MIN (Pandas.Qtrunc x));
    destruct (Z.ltb_spec (Pandas.Qtrunc x) Pandas.INT64_END); simpl; lia.
Qed.


(** ** The cleaning pass *)

Lemma notnull_Some {A : Type} (o : option A) :
  Pandas.notnull o = true -> exists a, o = Some a.
Proof. destruct o as [a|]; [exists a; reflexivity | discriminate]. Qed.

Lemma notna_NaN (c : cell) : Pandas.notna c = true -> c <> NaN.
Proof. intros H ->. discriminate. Qed.

Lemma complete_fields (r : Row) :
  Pandas.complete r = true ->
  (exists p, Platform r = Some p) /\ (exists y, Year_of_Release r = Some y) /\
  (exists g, Genre r = Some g) /\ Critic_Score r <> NaN /\
  Pandas.notna (User_Score r) = true /\ (exists a, Rating r = Some a).
Proof.
  unfold Pandas.complete. rewrite !andb_true_iff.
  intros [[[[[[Hp Hy] Hg] Hc] Hu] Ha] _].
  repeat split; auto using notnull_Some, notna_NaN.
Qed.

Lemma set_User_Score_same (r : Row) : set_User_Score r (User_Score r) = r.
Proof. destruct r; reflexivity. Qed.

Lemma set_Year_of_Release_same (r : Row) :
  set_Year_of_Release r (Year_of_Release r) = r.
Proof. destruct r; reflexivity. Qed.

Lemma is_float_fixed (py_float : string -> option pyfloat) (c : cell) :
  is_float c -> astype_float py_float (Pandas.replace_tbd c) = Some c.
Proof. intros [[u ->]|[b ->]]; reflexivity. Qed.

Section CleanerFacts.

Variable py_float : string -> option pyfloat.

Lemma astype_float_cases (c c' : cell) :
  astype_float py_float c = Some c' -> c' = NaN \/ is_float c'.
Proof.
  unfold is_float. destruct c as [|x|b|s]; simpl.
  - intros [= <-]. auto.
  - intros [= <-]. eauto.
  - intros [= <-]. eauto.
  - intros H. apply bind_Some in H.
    destruct H as [[|b|u] [_ [= <-]]]; simpl; eauto.
Qed.

(** Where a row of the cleaned table comes from: a raw row at or above the
    threshold, whose year it has as a 64-bit integer. *)
Lemma clean_data_row_origin (raw : DataFrame) (threshold : Z) (cleaned : DataFrame) :
  clean_data py_float raw threshold = Some cleaned ->
  forall r, In r cleaned ->
  (exists r0 x, In r0 raw /\ Year_of_Release r0 = Some x
                /\ (inject_Z threshold <= x)%Q
                /\ year_is r (Pandas.int64_cast x)) /\
  no_missing r /\ Pandas.complete r = true.
Proof.
  unfold clean_data. intros H r Hr.
  apply bind_Some in H. destruct H as [d1 [H1 H]].
  apply bind_Some in H. destruct H as [d2 [H2 [= <-]]].
  apply filter_In in Hr. destruct Hr as [Hr Hc].
  destruct (mapM_In _ _ _ H2 r Hr) as [r1 [Hr1 Hy]].
  apply bind_Some in Hy. destruct Hy as [y [Hy [= <-]]].
  destruct (mapM_In _ _ _ H1 r1 Hr1) as [r0 [Hr0 Hu]].
  apply bind_Some in Hu. destruct Hu as [c [Hu [= <-]]].
  apply filter_In in Hr0. destruct Hr0 as [Hr0 Hge].
  simpl in Hy. unfold Pandas.ge_int in Hge.
  destruct (Year_of_Release r0) as [x|] eqn:Hx; [|discriminate].
  simpl in Hy. injection Hy as <-.
  apply Qle_bool_iff in Hge.
  destruct (complete_fields _ Hc) as [Hp [Hyr [Hg [Hcs [Hna Ha]]]]].
  simpl in *.
  split; [|split; [|exact Hc]].
  - exists r0, x. repeat split; auto.
  - unfold no_missing. simpl. repeat split; auto.
    destruct (astype_float_cases _ _ Hu) as [->|Hf]; [discriminate | exact Hf].
Qed.

(** Every row that survives the four steps has a year that is a 64-bit
    integer, a float for user score and no missing cell. *)
Lemma clean_data_shape (raw : DataFrame) (threshold : Z) (cleaned : DataFrame) :
  clean_data py_float raw threshold = Some cleaned ->
  Forall cleaned_shape cleaned.
Proof.
  intros H. apply Forall_forall. intros r Hr.
  destruct (clean_data_row_origin _ _ _ H r Hr) as [[r0 [x [_ [_ [_ Hy]]]]] [Hm Hc]].
  split; [|split; assumption].
  exists (Pandas.int64_cast x). split; [exact Hy | apply int64_cast_range].
Qed.

(** When the raw years are below 2^63, the years that survive are at or
    above the threshold. *)
Lemma clean_data_rows (raw : DataFrame) (threshold : Z) (cleaned : DataFrame) :
  clean_data py_float raw threshold = Some cleaned ->
  years_below_2_63 raw ->
  Forall (cleaned_row threshold) cleaned.
Proof.
  intros H Hb. assert (Hs := clean_data_shape _ _ _ H).
  rewrite Forall_forall in Hs. unfold years_below_2_63 in Hb.
  rewrite Forall_forall in Hb.
  apply Forall_forall. intros r Hr. split; [|exact (Hs r Hr)].
  destruct (clean_data_row_origin _ _ _ H r Hr) as [[r0 [x [Hr0 [Hx [Hle Hy]]]]] _].
  exists (Pandas.int64_cast x). split; [exact Hy|].
  apply int64_cast_lower; [exact Hle | exact (Hb r0 Hr0 x Hx)].
Qed.

(** A table of cleaned rows passes through [clean_data] untouched. *)
Lemma clean_data_fixed (t : DataFrame) (threshold : Z) :
  Forall (cleaned_row threshold) t -> clean_data py_float t threshold = Some t.
Proof.
  intros Ht. unfold clean_data.
  assert (Hq : query_year t threshold = t).
  { apply filter_fixed. eapply Forall_impl; [|exact Ht].
    intros r [[z [Hz Hle]] _]. unfold year_is in Hz. rewrite Hz. simpl.
    apply Qle_bool_iff. rewrite <- Zle_Qle. exact Hle. }
  assert (Hu : assign_User_Score py_float t = Some t).
  { apply mapM_fixed. eapply Forall_impl; [|exact Ht].
    intros r [_ [_ [[_ [_ [_ [_ [_ Hf]]]]] _]]].
    rewrite (is_float_fixed py_float _ Hf). simpl.
    rewrite set_User_Score_same. reflexivity. }
  assert (Hy : assign_Year_of_Release t = Some t).
  { apply mapM_fixed. eapply Forall_impl; [|exact Ht].
    intros r [_ [[z [Hz Hr]] _]]. unfold year_is in Hz. rewrite Hz. simpl.
    rewrite (int64_cast_inject_Z _ Hr), <- Hz, set_Year_of_Release_same.
    reflexivity. }
  rewrite Hq, Hu. simpl. rewrite Hy. simpl. f_equal.
  apply filter_fixed. eapply Forall_impl; [|exact Ht].
  intros r [_ [_ [_ Hc]]]. exact Hc.
Qed.

Lemma assign_User_Score_returns (l : DataFrame) :
  Forall (fun r => Year_of_Release r <> None /\
                   forall s, User_Score r = Str s -> s <> "tbd"%string ->
                             py_float s <> None) l ->
  exists d, assign_User_Score py_float l = Some d
            /\ Forall (fun r => Year_of_Release r <> None) d.
Proof.
  unfold assign_User_Score.
  induction 1 as [|r l [Hy Hs] _ [d [IH1 IH2]]]; cbn [mapM].
  - exists []. split; [reflexivity | constructor].
  - assert (Hc : exists c, astype_float py_float (Pandas.replace_tbd (User_Score r)) = Some c).
    { destruct (User_Score r) as [|x|b|s] eqn:E; simpl; eauto.
      destruct (String.eqb_spec s "tbd") as [->|Hne]; simpl; eauto.
      specialize (Hs s eq_refl Hne).
      destruct (py_float s) as [f|] eqn:Ef; [simpl; eauto | contradiction]. }
    destruct Hc as [c Hc].
    exists (set_User_Score r c :: d).
    rewrite Hc, IH1. simpl.
    split; [reflexivity | constructor; auto].
Qed.

(** On the tables of this development, whose years are finite or missing,
    [clean_data] raises only when [float] does: a table whose user scores
    are all readable is cleaned. *)
Lemma clean_data_returns (raw : DataFrame) (threshold : Z) :
  Forall (fun r => forall s, User_Score r = Str s -> s <> "tbd"%string ->
                             py_float s <> None) raw ->
  exists cleaned, clean_data py_float raw threshold = Some cleaned.
Proof.
  intros Hraw. unfold clean_data.
  destruct (assign_User_Score_returns (query_year raw threshold)) as [d1 [H1 Hd1]].
  { apply Forall_forall. intros r Hr. apply filter_In in Hr. destruct Hr as [Hr Hge].
    split.
    - intros E. rewrite E in Hge. discriminate.
    - rewrite Forall_forall in Hraw. exact (Hraw r Hr). }
  rewrite H1. simpl.
  destruct (mapM_total (fun r => y <- Pandas.astype_int (Year_of_Release r) ;;
                                 Some (set_Year_of_Release r y)) d1) as [d2 H2].
  { eapply Forall_impl; [|exact Hd1]. intros r Hr.
    destruct (Year_of_Release r) as [x|] eqn:Ex; [simpl; eauto | contradiction]. }
  unfold assign_Year_of_Release. rewrite H2. simpl. eauto.
Qed.

End CleanerFacts.

(** ** The selection mask *)

Lemma isin_spec (c : option string) (values : list string) :
  Pandas.isin c values = true <-> exists s, c = Some s /\ In s values.
Proof.
  destruct c as [s|]; simpl.
  - rewrite existsb_exists. split.
    + intros [v [Hv E]]. apply String.eqb_eq in E. subst v. eauto.
    + intros [s' [[= <-] Hs]]. exists s. split; [exact Hs | apply String.eqb_refl].
  - split; [discriminate | intros [s [E _]]; discriminate].
Qed.

Lemma between_spec (c : option Q) (left right : Q) :
  Pandas.between c left right = true <->
  exists y, c = Some y /\ (left <= y)%Q /\ (y <= right)%Q.
Proof.
  destruct c as [x|]; simpl.
  - rewrite andb_true_iff, !Qle_bool_iff. split.
    + intros H. eauto.
    + intros [y [[= <-] H]]. exact H.
  - split; [discriminate | intros [y [E _]]; discriminate].
Qed.

Lemma mask_spec (genres ratings : list string) (year_range : Q * Q) (r : Row) :
  mask genres ratings year_range r = true <->
  genre_in r genres /\ rating_in r ratings /\ year_in r year_range.
Proof.
  unfold mask, genre_in, rating_in, year_in.
  rewrite !andb_true_iff, !isin_spec, between_spec. tauto.
Qed.

Lemma filtered_df_In (t : DataFrame) (genres ratings : list string)
      (year_range : Q * Q) (r : Row) :
  In r (filtered_df t genres ratings year_range) <->
  In r t /\ genre_in r genres /\ rating_in r ratings /\ year_in r year_range.
Proof. unfold filtered_df. rewrite filter_In, mask_spec. tauto. Qed.

Lemma filtered_df_empty (t : DataFrame) (genres ratings : list string)
      (year_range : Q * Q) :
  (forall r, In r t ->
             ~ (genre_in r genres /\ rating_in r ratings /\ year_in r year_range)) ->
  filtered_df t genres ratings year_range = [].
Proof.
  intros H. apply filter_none. intros r Hr.
  destruct (mask genres ratings year_range r) eqn:E; [|reflexivity].
  apply mask_spec in E. elim (H r Hr E).
Qed.

(** What holds of every row of the table holds of every row of the
    subset. *)
Lemma filtered_df_Forall (P : Row -> Prop) (t : DataFrame)
      (genres ratings : list string) (year_range : Q * Q) :
  Forall P t -> Forall P (filtered_df t genres ratings year_range).
Proof.
  intros H. apply Forall_forall. intros r Hr.
  apply filter_In in Hr. rewrite Forall_forall in H. apply H. tauto.
Qed.

(** A value that no row carries can be struck from the selection. *)
Lemma absent_genre_neutral (t : DataFrame) (g : string) (genres ratings : list string)
      (year_range : Q * Q) :
  ~ genre_present t g ->
  filtered_df t (g :: genres) ratings year_range
  = filtered_df t genres ratings year_range.
Proof.
  intros Hg. unfold filtered_df. apply filter_ext_in. intros r Hr.
  unfold mask. f_equal. f_equal.
  destruct (Genre r) as [s|] eqn:E; simpl; [|reflexivity].
  destruct (String.eqb_spec s g) as [->|_]; [|reflexivity].
  elim Hg. exists r. auto.
Qed.

Lemma absent_rating_neutral (t : DataFrame) (a : string) (genres ratings : list string)
      (year_range : Q * Q) :
  ~ rating_present t a ->
  filtered_df t genres (a :: ratings) year_range
  = filtered_df t genres ratings year_range.
Proof.
  intros Ha. unfold filtered_df. apply filter_ext_in. intros r Hr.
  unfold mask. f_equal. f_equal.
  destruct (Rating r) as [s|] eqn:E; simpl; [|reflexivity].
  destruct (String.eqb_spec s a) as [->|_]; [|reflexivity].
  elim Ha. exists r. auto.
Qed.

Lemma isin_remove (c : option string) (v : string) (values : list string) :
  c <> Some v ->
  Pandas.isin c (remove string_dec v values) = Pandas.isin c values.
Proof.
  intros Hc. apply eq_true_iff_eq. rewrite !isin_spec. split.
  - intros [s [E Hs]]. apply in_remove in Hs. exists s. tauto.
  - intros [s [E Hs]]. exists s. split; [exact E|].
    apply in_in_remove; [|exact Hs]. intros ->. contradiction.
Qed.

(** The same wherever the value stands in the selection, and however often
    it is repeated. *)
Lemma absent_genre_removable (t : DataFrame) (g : string) (genres ratings : list string)
      (year_range : Q * Q) :
  ~ genre_present t g ->
  filtered_df t genres ratings year_range
  = filtered_df t (remove string_dec g genres) ratings year_range.
Proof.
  intros Hg. unfold filtered_df. apply filter_ext_in. intros r Hr.
  unfold mask. rewrite isin_remove; [reflexivity|].
  intros E. apply Hg. exists r. auto.
Qed.

Lemma absent_rating_removable (t : DataFrame) (a : string) (genres ratings : list string)
      (year_range : Q * Q) :
  ~ rating_present t a ->
  filtered_df t genres ratings year_range
  = filtered_df t genres (remove string_dec a ratings) year_range.
Proof.
  intros Ha. unfold filtered_df. apply filter_ext_in. intros r Hr.
  unfold mask. rewrite isin_remove; [reflexivity|].
  intros E. apply Ha. exists r. auto.
Qed.

(** ** The order of the group keys *)

Lemma ascii_compare_trans (a b c : ascii) :
  (a ?= b)%char = Lt -> (b ?= c)%char = Lt -> (a ?= c)%char = Lt.
Proof.
  unfold Ascii.compare. rewrite !N.compare_lt_iff. lia.
Qed.

Lemma string_compare_trans (s1 s2 s3 : string) :
  (s1 ?= s2)%string = Lt -> (s2 ?= s3)%string = Lt -> (s1 ?= s3)%string = Lt.
Proof.
  revert s2 s3. induction s1 as [|a s1 IH]; intros [|b s2] [|c s3]; simpl;
    try discriminate; try reflexivity.
  destruct (a ?= b)%char eqn:Eab; try discriminate;
    destruct (b ?= c)%char eqn:Ebc; try discriminate; intros H12 H23.
  - apply Ascii.compare_eq_iff in Eab, Ebc. subst b c.
    replace (a ?= a)%char with Eq
      by (symmetry; unfold Ascii.compare; apply N.compare_refl).
    eauto.
  - apply Ascii.compare_eq_iff in Eab. subst b. rewrite Ebc. reflexivity.
  - apply Ascii.compare_eq_iff in Ebc. subst c. rewrite Eab. reflexivity.
  - rewrite (ascii_compare_trans _ _ _ Eab Ebc). reflexivity.
Qed.

Lemma key_lt_trans (g1 g2 g3 : GroupRow) :
  key_lt g1 g2 -> key_lt g2 g3 -> key_lt g1 g3.
Proof.
  unfold key_lt. intros [H12|[E12 P12]] [H23|[E23 P23]].
  - left. eapply Qlt_trans; eauto.
  - left. rewrite <- E23. exact H12.
  - left. rewrite E12. exact H23.
  - right. split.
    + rewrite E12. exact E23.
    + eapply string_compare_trans; eauto.
Qed.

Lemma key_lt_year_le (g1 g2 : GroupRow) : key_lt g1 g2 -> year_le g1 g2.
Proof.
  unfold key_lt, year_le. intros [H|[E _]].
  - apply Qlt_le_weak. exact H.
  - rewrite E. apply Qle_refl.
Qed.

Lemma key_compare_Lt (y : Q) (p : string) (g : GroupRow) (n : nat) :
  Pandas.key_compare y p (group_year g) (group_platform g) = Lt ->
  key_lt (mkGroup y p n) g.
Proof.
  unfold Pandas.key_compare, key_lt. simpl.
  destruct (y ?= group_year g)%Q eqn:E; try discriminate; intros H.
  - right. split; [apply Qeq_alt; exact E | exact H].
  - left. apply Qlt_alt. exact E.
Qed.

Lemma key_compare_Gt (y : Q) (p : string) (g : GroupRow) (n : nat) :
  Pandas.key_compare y p (group_year g) (group_platform g) = Gt ->
  key_lt g (mkGroup y p n).
Proof.
  unfold Pandas.key_compare, key_lt. simpl.
  destruct (y ?= group_year g)%Q eqn:E; try discriminate; intros H.
  - right. split.
    + symmetry. apply Qeq_alt. exact E.
    + rewrite String.compare_antisym, H. reflexivity.
  - left. apply Qgt_alt. exact E.
Qed.

(** [key_lt] reads the two key columns only. *)
Lemma key_lt_same_key_l (g g' g1 : GroupRow) :
  group_year g' = group_year g -> group_platform g' = group_platform g ->
  key_lt g g1 -> key_lt g' g1.
Proof. unfold key_lt. intros -> ->. auto. Qed.

(** ** Grouping *)

Lemma count_key_HdRel (g : GroupRow) (y : Q) (p : string) (gs : list GroupRow) :
  HdRel key_lt g gs -> key_lt g (mkGroup y p 1) ->
  HdRel key_lt g (Pandas.count_key y p gs).
Proof.
  intros Hhd Hnew. destruct gs as [|g1 gs]; simpl.
  - constructor. exact Hnew.
  - apply HdRel_inv in Hhd.
    destruct (Pandas.key_compare y p (group_year g1) (group_platform g1));
      constructor; auto.
Qed.

Lemma count_key_Sorted (y : Q) (p : string) (gs : list GroupRow) :
  Sorted key_lt gs -> Sorted key_lt (Pandas.count_key y p gs).
Proof.
  induction gs as [|g gs IH]; simpl; intros Hs.
  - repeat constructor.
  - apply Sorted_inv in Hs. destruct Hs as [Hs Hhd].
    destruct (Pandas.key_compare y p (group_year g) (group_platform g)) eqn:E.
    + constructor; [exact Hs|].
      destruct gs as [|g1 gs]; constructor.
      apply HdRel_inv in Hhd.
      eapply key_lt_same_key_l; [| |exact Hhd]; reflexivity.
    + constructor; [constructor; assumption|].
      constructor. apply key_compare_Lt. exact E.
    + constructor; [auto|].
      apply count_key_HdRel; [exact Hhd|]. apply key_compare_Gt. exact E.
Qed.

Lemma fold_count_row_Sorted (l : DataFrame) (acc : list GroupRow) :
  Sorted key_lt acc -> Sorted key_lt (fold_left Pandas.count_row l acc).
Proof.
  revert acc. induction l as [|r l IH]; simpl; intros acc Hs; [exact Hs|].
  apply IH. unfold Pandas.count_row.
  destruct (Year_of_Release r) as [y|]; [|exact Hs].
  destruct (Platform r) as [p|]; [|exact Hs].
  apply count_key_Sorted. exact Hs.
Qed.

Lemma groupby_size_sorted (subset : DataFrame) :
  StronglySorted key_lt (Pandas.groupby_size subset).
Proof.
  apply Sorted_StronglySorted.
  - intros g1 g2 g3. apply key_lt_trans.
  - apply fold_count_row_Sorted. constructor.
Qed.

Lemma count_key_sum (y : Q) (p : string) (gs : list GroupRow) :
  sum_counts (Pandas.count_key y p gs) = S (sum_counts gs).
Proof.
  induction gs as [|g gs IH]; simpl.
  - reflexivity.
  - destruct (Pandas.key_compare y p (group_year g) (group_platform g)); simpl.
    + reflexivity.
    + reflexivity.
    + rewrite IH. lia.
Qed.

Lemma fold_count_row_sum (l : DataFrame) (acc : list GroupRow) :
  Forall (fun r => Year_of_Release r <> None /\ Platform r <> None) l ->
  sum_counts (fold_left Pandas.count_row l acc) = sum_counts acc + length l.
Proof.
  intros H. revert acc. induction H as [|r l [Hy Hp] _ IH]; simpl; intros acc.
  - lia.
  - rewrite IH. unfold Pandas.count_row.
    destruct (Year_of_Release r) as [y|]; [|contradiction].
    destruct (Platform r) as [p|]; [|contradiction].
    rewrite count_key_sum. lia.
Qed.

Lemma count_key_witnessed (subset : DataFrame) (y : Q) (p : string)
      (gs : list GroupRow) :
  (exists r, In r subset /\ Year_of_Release r = Some y /\ Platform r = Some p) ->
  Forall (group_witnessed subset) gs ->
  Forall (group_witnessed subset) (Pandas.count_key y p gs).
Proof.
  intros Hr. induction 1 as [|g gs [Hn Hg] Hgs IH]; simpl.
  - constructor; [|constructor]. split; [simpl; lia | exact Hr].
  - destruct (Pandas.key_compare y p (group_year g) (group_platform g)).
    + constructor; [|exact Hgs]. split; [simpl; lia | exact Hg].
    + constructor; [|constructor; [split|]; assumption].
      split; [simpl; lia | exact Hr].
    + constructor; [split; assumption | exact IH].
Qed.

Lemma fold_count_row_witnessed (subset l : DataFrame) (acc : list GroupRow) :
  incl l subset ->
  Forall (group_witnessed subset) acc ->
  Forall (group_witnessed subset) (fold_left Pandas.count_row l acc).
Proof.
  revert acc. induction l as [|r l IH]; simpl; intros acc Hl Hacc; [exact Hacc|].
  apply IH.
  - intros x Hx. apply Hl. right. exact Hx.
  - unfold Pandas.count_row.
    destruct (Year_of_Release r) as [y|] eqn:Ey; [|exact Hacc].
    destruct (Platform r) as [p|] eqn:Ep; [|exact Hacc].
    apply count_key_witnessed; [|exact Hacc].
    exists r. split; [apply Hl; left; reflexivity | auto].
Qed.

(** *** The sizes are the numbers of rows per key *)

Lemma string_compare_refl (s : string) : (s ?= s)%string = Eq.
Proof.
  induction s as [|a s IH]; simpl; [reflexivity|].
  unfold Ascii.compare. rewrite N.compare_refl. exact IH.
Qed.

Lemma key_compare_Eq (y1 : Q) (p1 : string) (y2 : Q) (p2 : string) :
  Pandas.key_compare y1 p1 y2 p2 = Eq <-> (y1 == y2)%Q /\ p1 = p2.
Proof.
  unfold Pandas.key_compare. split.
  - destruct (y1 ?= y2)%Q eqn:E; try discriminate. intros H.
    split; [apply Qeq_alt; exact E | apply String.compare_eq_iff; exact H].
  - intros [Hy ->]. rewrite (proj1 (Qeq_alt _ _) Hy). apply string_compare_refl.
Qed.

Lemma key_compare_eq_l (y1 y2 : Q) (p : string) (y3 : Q) (p3 : string) :
  (y1 == y2)%Q ->
  Pandas.key_compare y1 p y3 p3 = Pandas.key_compare y2 p y3 p3.
Proof. unfold Pandas.key_compare. intros ->. reflexivity. Qed.

Lemma key_compare_eq_r (y1 : Q) (p1 : string) (y2 y3 : Q) (p : string) :
  (y2 == y3)%Q ->
  Pandas.key_compare y1 p1 y2 p = Pandas.key_compare y1 p1 y3 p.
Proof. unfold Pandas.key_compare. intros ->. reflexivity. Qed.

Lemma key_compare_antisym (y1 : Q) (p1 : string) (y2 : Q) (p2 : string) :
  Pandas.key_compare y2 p2 y1 p1 = CompOpp (Pandas.key_compare y1 p1 y2 p2).
Proof.
  unfold Pandas.key_compare. rewrite <- (Qcompare_antisym y1 y2).
  destruct (y1 ?= y2)%Q; simpl; try reflexivity.
  apply String.compare_antisym.
Qed.

Lemma key_lt_compare (g1 g2 : GroupRow) :
  key_lt g1 g2 <->
  Pandas.key_compare (group_year g1) (group_platform g1)
                     (group_year g2) (group_platform g2) = Lt.
Proof.
  unfold key_lt, Pandas.key_compare. split.
  - intros [H|[E H]].
    + rewrite (proj1 (Qlt_alt _ _) H). reflexivity.
    + rewrite (proj1 (Qeq_alt _ _) E). exact H.
  - destruct (group_year g1 ?= group_year g2)%Q eqn:E; try discriminate.
    + intros H. right. split; [apply Qeq_alt; exact E | exact H].
    + intros _. left. apply Qlt_alt. exact E.
Qed.

(** A key below every group of the list has no group in it. *)
Lemma size_of_below (y : Q) (p : string) (gs : list GroupRow) :
  Forall (key_lt (mkGroup y p 0)) gs -> size_of y p gs = 0.
Proof.
  induction 1 as [|g gs Hg _ IH]; simpl; [reflexivity|].
  apply key_lt_compare in Hg. simpl in Hg. rewrite Hg. exact IH.
Qed.

Lemma size_of_count_key (y : Q) (p : string) (y' : Q) (p' : string)
      (gs : list GroupRow) :
  StronglySorted key_lt gs ->
  size_of y p (Pandas.count_key y' p' gs)
  = size_of y p gs
    + match Pandas.key_compare y p y' p' with Eq => 1 | _ => 0 end.
Proof.
  induction 1 as [|g gs Hs IH Hg]; simpl.
  - destruct (Pandas.key_compare y p y' p'); reflexivity.
  - destruct (Pandas.key_compare y' p' (group_year g) (group_platform g)) eqn:E'.
    + (* the key of [g]: its size grows by one *)
      apply key_compare_Eq in E'. destruct E' as [Ey ->]. simpl.
      rewrite (key_compare_eq_r y p y' (group_year g) (group_platform g) Ey).
      destruct (Pandas.key_compare y p (group_year g) (group_platform g)); lia.
    + (* a new least key *)
      simpl. destruct (Pandas.key_compare y p y' p') eqn:E; try lia.
      apply key_compare_Eq in E. destruct E as [Ey ->].
      rewrite (key_compare_eq_l y y' p' (group_year g) (group_platform g) Ey), E'.
      rewrite size_of_below; [lia|].
      assert (Hlt : key_lt (mkGroup y p' 0) g).
      { apply key_lt_compare. simpl.
        rewrite (key_compare_eq_l y y' p' _ _ Ey). exact E'. }
      eapply Forall_impl; [|exact Hg].
      intros g2 H2. eapply key_lt_trans; eauto.
    + (* further down the list *)
      simpl. rewrite IH.
      destruct (Pandas.key_compare y p (group_year g) (group_platform g)) eqn:E;
        try reflexivity.
      destruct (Pandas.key_compare y p y' p') eqn:E2; try lia.
      apply key_compare_Eq in E2. destruct E2 as [Ey ->].
      rewrite (key_compare_eq_l y y' p' _ _ Ey), E' in E. discriminate.
Qed.

Lemma fold_count_row_size (y : Q) (p : string) (l : DataFrame) (acc : list GroupRow) :
  StronglySorted key_lt acc ->
  size_of y p (fold_left Pandas.count_row l acc) = size_of y p acc + group_size y p l.
Proof.
  unfold group_size. revert acc. induction l as [|r l IH]; simpl; intros acc Hs.
  - lia.
  - assert (Hs' : StronglySorted key_lt (Pandas.count_row acc r)).
    { apply Sorted_StronglySorted; [intros a b c; apply key_lt_trans|].
      apply (fold_count_row_Sorted [r]). apply StronglySorted_Sorted. exact Hs. }
    rewrite (IH _ Hs'). unfold Pandas.count_row, has_key.
    destruct (Year_of_Release r) as [y'|]; [|reflexivity].
    destruct (Platform r) as [p'|]; [|reflexivity].
    rewrite size_of_count_key by exact Hs.
    destruct (Pandas.key_compare y p y' p'); simpl; lia.
Qed.

Lemma size_of_member (g : GroupRow) (gs : list GroupRow) :
  StronglySorted key_lt gs -> In g gs ->
  size_of (group_year g) (group_platform g) gs = Number_of_Games g.
Proof.
  induction 1 as [|g0 gs Hs IH Hg]; simpl; intros Hin; [contradiction|].
  destruct Hin as [->|Hin].
  - replace (Pandas.key_compare _ _ _ _) with Eq; [reflexivity|].
    symmetry. apply key_compare_Eq. split; reflexivity.
  - rewrite Forall_forall in Hg. specialize (Hg g Hin).
    apply key_lt_compare in Hg. rewrite key_compare_antisym, Hg. simpl.
    apply IH. exact Hin.
Qed.

(** The size of each group is the number of rows of the subset that carry
    its key. *)
Lemma groupby_size_counts (subset : DataFrame) (g : GroupRow) :
  In g (Pandas.groupby_size subset) ->
  Number_of_Games g = group_size (group_year g) (group_platform g) subset.
Proof.
  intros Hin.
  rewrite <- (size_of_member g _ (groupby_size_sorted subset) Hin).
  unfold Pandas.groupby_size. rewrite fold_count_row_size by constructor.
  reflexivity.
Qed.

(** Every row with both keys present is counted in some group. *)
Lemma groupby_size_covers (subset : DataFrame) (r : Row) (y : Q) (p : string) :
  In r subset -> Year_of_Release r = Some y -> Platform r = Some p ->
  exists g, In g (Pandas.groupby_size subset)
            /\ (group_year g == y)%Q /\ group_platform g = p.
Proof.
  intros Hin Hy Hp.
  assert (Hpos : 1 <= size_of y p (Pandas.groupby_size subset)).
  { unfold Pandas.groupby_size. rewrite fold_count_row_size by constructor.
    simpl. unfold group_size.
    assert (Hf : In r (filter (has_key y p) subset)).
    { apply filter_In. split; [exact Hin|]. unfold has_key. rewrite Hy, Hp.
      replace (Pandas.key_compare y p y p) with Eq; [reflexivity|].
      symmetry. apply key_compare_Eq. split; reflexivity. }
    destruct (filter (has_key y p) subset); [contradiction | simpl; lia]. }
  induction (Pandas.groupby_size subset) as [|g gs IH]; simpl in Hpos; [lia|].
  destruct (Pandas.key_compare y p (group_year g) (group_platform g)) eqn:E.
  - apply key_compare_Eq in E. destruct E as [Ey ->].
    exists g. split; [left; reflexivity | split; [symmetry; exact Ey | reflexivity]].
  - destruct (IH Hpos) as [g' [Hg' Hk]]. exists g'. split; [right; exact Hg' | exact Hk].
  - destruct (IH Hpos) as [g' [Hg' Hk]]. exists g'. split; [right; exact Hg' | exact Hk].
Qed.

Lemma StronglySorted_weaken {A : Type} (R R' : A -> A -> Prop) (l : list A) :
  (forall a b, R a b -> R' a b) -> StronglySorted R l -> StronglySorted R' l.
Proof.
  intros HR. induction 1 as [|a l _ IH Ha]; constructor.
  - exact IH.
  - eapply Forall_impl; [|exact Ha]. intros b. apply HR.
Qed.

(** * The properties of the pipeline *)

(** ** DatasetCleaner *)

Lemma scenario_years_below : years_below_2_63 Scenario.raw.
Proof.
  unfold years_below_2_63, Scenario.raw.
  repeat constructor; intros y [= <-]; reflexivity.
Qed.




(** C6, as the claim puts it, fails: the record whose release year is 10^19
    comes out of the first pass with the year -2^63, and the second pass,
    at the same threshold 2000, drops it. *)
Lemma clean_data_twice_counterexample :
  ~ (forall cleaned,
        clean_data DecimalFloat.float Scenario.far_future 2000 = Some cleaned ->
        clean_data DecimalFloat.float cleaned 2000 = Some cleaned).
Proof.
  intros H. specialize (H Scenario.far_future_cleaned eq_refl).
  rewrite far_future_cleaned_again in H. discriminate H.
Qed.

(** C6, amended: for a raw table whose release years are all below 2^63,
    cleaning is idempotent: applied with the same threshold to its own
    output, [clean_data] returns that output unchanged. *)
Theorem clean_data_idempotent
        (py_float : string -> option pyfloat)
        (raw : DataFrame) (threshold : Z) (cleaned : DataFrame) :
  clean_data py_float raw threshold = Some cleaned ->
  years_below_2_63 raw ->
  clean_data py_float cleaned threshold = Some cleaned.
Proof.
  intros H Hb. apply clean_data_fixed. exact (clean_data_rows _ _ _ _ H Hb).
Qed.

Lemma clean_data_idempotent_witness :
  clean_data DecimalFloat.float Scenario.raw 2000 = Some Scenario.cleaned /\
  years_below_2_63 Scenario.raw /\
  clean_data DecimalFloat.float Scenario.cleaned 2000 = Some Scenario.cleaned.
Proof.
  split; [reflexivity|]. split; [exact scenario_years_below|].
  apply (clean_data_idempotent DecimalFloat.float Scenario.raw 2000).
  - reflexivity.
  - exact scenario_years_below.
Defined.

(** ** FilterEngine *)


(** C5: filtering is monotone: when the genres, the ratings and the year
    range of one selection are contained in those of another, every record
    kept by the first is kept by the second. *)
Theorem filter_monotone
        (df_cleaned : DataFrame) (genres1 genres2 ratings1 ratings2 : list string)
        (range1 range2 : Q * Q) :
  incl genres1 genres2 -> incl ratings1 ratings2 -> range_within range1 range2 ->
  incl (filtered_df df_cleaned genres1 ratings1 range1)
       (filtered_df df_cleaned genres2 ratings2 range2).
Proof.
  intros Hg Ha Hy r Hr. apply filtered_df_In in Hr. apply filtered_df_In.
  destruct Hr as [Hin [[g [Eg Ig]] [[a [Ea Ia]] [y [Ey Iy]]]]].
  split; [exact Hin|]. split; [|split].
  - exists g. auto.
  - exists a. auto.
  - exists y. split; [exact Ey | apply Hy; exact Iy].
Qed.

Lemma filter_monotone_witness :
  incl ["Action"%string] ["Action"%string; "RPG"%string] /\
  incl ["E"%string] ["E"%string; "M"%string] /\
  range_within (2005 # 1, 2010 # 1)%Q (2000 # 1, 2016 # 1)%Q /\
  incl (filtered_df Scenario.cleaned ["Action"%string] ["E"%string]
                    (2005 # 1, 2010 # 1)%Q)
       (filtered_df Scenario.cleaned ["Action"%string; "RPG"%string]
                    ["E"%string; "M"%string] (2000 # 1, 2016 # 1)%Q).
Proof.
  assert (Hg : incl ["Action"%string] ["Action"%string; "RPG"%string]).
  { intros x [<-|[]]. left. reflexivity. }
  assert (Ha : incl ["E"%string] ["E"%string; "M"%string]).
  { intros x [<-|[]]. left. reflexivity. }
  assert (Hy : range_within (2005 # 1, 2010 # 1)%Q (2000 # 1, 2016 # 1)%Q).
  { intros y [H1 H2]. simpl in *. split.
    - apply Qle_trans with (2005 # 1)%Q; [unfold Qle; simpl; lia | exact H1].
    - apply Qle_trans with (2010 # 1)%Q; [exact H2 | unfold Qle; simpl; lia]. }
  split; [exact Hg|]. split; [exact Ha|]. split; [exact Hy|].
  apply (filter_monotone Scenario.cleaned _ _ _ _ _ _ Hg Ha Hy).
Defined.



(** C9, as the claim puts it, fails: a selection that names the genre
    "Strategy", which no row of the table carries, next to "Action" still
    selects the two Action rows. *)
Lemma absent_value_counterexample :
  ~ (refers_to_absent Scenario.cleaned ["Action"%string; "Strategy"%string] ["E"%string] ->
     filtered_df Scenario.cleaned ["Action"%string; "Strategy"%string] ["E"%string]
                 (2000 # 1, 2016 # 1)%Q = []).
Proof.
  intros H.
  assert (Habs : refers_to_absent Scenario.cleaned
                   ["Action"%string; "Strategy"%string] ["E"%string]).
  { left. exists "Strategy"%string. split.
    - right. left. reflexivity.
    - intros [r [Hr Hg]]. simpl in Hr.
      destruct Hr as [<-|[<-|[<-|[]]]]; discriminate Hg. }
  specialize (H Habs). vm_compute in H. discriminate H.
Qed.

(** C9, amended: when no selected genre, or no selected rating, is carried
    by a row of the table, the subset is empty and the count is 0; nothing
    is raised. *)
Theorem all_absent_empty
        (df_cleaned : DataFrame) (genres ratings : list string) (year_range : Q * Q) :
  all_absent df_cleaned genres ratings ->
  filtered_df df_cleaned genres ratings year_range = [] /\
  game_count df_cleaned genres ratings year_range = 0.
Proof.
  intros Habs.
  assert (E : filtered_df df_cleaned genres ratings year_range = []).
  { apply filtered_df_empty. intros r Hr [[g [Eg Ig]] [[a [Ea Ia]] _]].
    destruct Habs as [Hg|Ha].
    - apply (Hg g Ig). exists r. auto.
    - apply (Ha a Ia). exists r. auto. }
  unfold game_count. rewrite E. auto.
Qed.

Lemma all_absent_empty_witness :
  all_absent Scenario.cleaned ["Strategy"%string] ["E"%string] /\
  filtered_df Scenario.cleaned ["Strategy"%string] ["E"%string] (2000 # 1, 2016 # 1)%Q = [] /\
  game_count Scenario.cleaned ["Strategy"%string] ["E"%string] (2000 # 1, 2016 # 1)%Q = 0.
Proof.
  assert (H : all_absent Scenario.cleaned ["Strategy"%string] ["E"%string]).
  { left. intros g [<-|[]] [r [Hr Hg]]. simpl in Hr.
    destruct Hr as [<-|[<-|[<-|[]]]]; discriminate Hg. }
  split; [exact H|].
  apply (all_absent_empty Scenario.cleaned ["Strategy"%string] ["E"%string]
                          (2000 # 1, 2016 # 1)%Q H).
Defined.

(** ** AggregationEngine *)

(** C3: the number of games is the length of the filtered subset, and it is
    this number, in decimal, that the callback prints after its caption. *)
Theorem game_count_is_length
        (df_cleaned : DataFrame) (genres ratings : list string) (year_range : Q * Q) :
  game_count df_cleaned genres ratings year_range
  = length (filtered_df df_cleaned genres ratings year_range) /\
  exists digits,
    update_game_count_text df_cleaned genres ratings year_range
    = ("Number of the selected games is: " ++ digits)%string /\
    option_map Nat.of_uint (NilEmpty.uint_of_string digits)
    = Some (length (filtered_df df_cleaned genres ratings year_range)).
Proof.
  split; [reflexivity|].
  exists (NilEmpty.string_of_uint
            (Nat.to_uint (game_count df_cleaned genres ratings year_range))).
  split; [reflexivity|].
  rewrite NilEmpty.usu. simpl. rewrite Unsigned.of_to. reflexivity.
Qed.

(** C4: over a filtered subset of a cleaned table, the sizes of the
    (year, platform) groups add up to the number of games; an empty subset
    gives an empty series and the count 0. *)
Theorem group_counts_sum
        (py_float : string -> option pyfloat)
        (raw : DataFrame) (threshold : Z) (df_cleaned : DataFrame)
        (genres ratings : list string) (year_range : Q * Q) :
  clean_data py_float raw threshold = Some df_cleaned ->
  sum_counts (grouped_df df_cleaned genres ratings year_range)
  = game_count df_cleaned genres ratings year_range /\
  (filtered_df df_cleaned genres ratings year_range = [] ->
   grouped_df df_cleaned genres ratings year_range = [] /\
   game_count df_cleaned genres ratings year_range = 0).
Proof.
  intros H. split.
  - unfold grouped_df, game_count, Pandas.groupby_size.
    rewrite fold_count_row_sum; [reflexivity|].
    eapply Forall_impl;
      [|apply filtered_df_Forall, (clean_data_shape _ _ _ _ H)].
    intros r [_ [[[y Hy] [_ [_ [[p Hp] _]]]] _]].
    rewrite Hy, Hp. split; discriminate.
  - unfold grouped_df, game_count. intros ->. split; reflexivity.
Qed.

Lemma group_counts_sum_witness :
  clean_data DecimalFloat.float Scenario.raw 2000 = Some Scenario.cleaned /\
  sum_counts (grouped_df Scenario.cleaned ["Action"%string] ["E"%string]
                         (2000 # 1, 2016 # 1)%Q)
  = game_count Scenario.cleaned ["Action"%string] ["E"%string] (2000 # 1, 2016 # 1)%Q.
Proof.
  split.
  - reflexivity.
  - apply (group_counts_sum DecimalFloat.float Scenario.raw 2000 Scenario.cleaned
                            ["Action"%string] ["E"%string] (2000 # 1, 2016 # 1)%Q).
    reflexivity.
Defined.

(** C7, as the claim puts it, fails: of two records of 2010, the first on
    "X360" and the second on "PS3", the series lists the PS3 group first,
    against the order in which the platforms are met. *)
Lemma first_seen_order_counterexample :
  ~ (StronglySorted year_le
       (grouped_df Scenario.two_platforms ["Action"%string] ["E"%string]
                   (2000 # 1, 2016 # 1)%Q) /\
     ties_first_seen
       (filtered_df Scenario.two_platforms ["Action"%string] ["E"%string]
                    (2000 # 1, 2016 # 1)%Q)
       (grouped_df Scenario.two_platforms ["Action"%string] ["E"%string]
                   (2000 # 1, 2016 # 1)%Q) = true).
Proof.
  intros [_ H]. vm_compute in H. discriminate H.
Qed.

(** C7, amended: the groups come in ascending order of year, and the groups
    of one year in ascending order of platform name. *)
Theorem group_order_year_platform
        (df_cleaned : DataFrame) (genres ratings : list string) (year_range : Q * Q) :
  StronglySorted year_le (grouped_df df_cleaned genres ratings year_range) /\
  StronglySorted key_lt (grouped_df df_cleaned genres ratings year_range).
Proof.
  assert (H := groupby_size_sorted (filtered_df df_cleaned genres ratings year_range)).
  split; [|exact H].
  eapply StronglySorted_weaken; [|exact H]. exact key_lt_year_le.
Qed.

(** C10: every (year, platform) key of the series has a count of at least
    one and is the year and platform of some record of the filtered subset:
    no empty group and no foreign key is emitted. *)
Theorem groups_witnessed
        (df_cleaned : DataFrame) (genres ratings : list string) (year_range : Q * Q) :
  Forall (group_witnessed (filtered_df df_cleaned genres ratings year_range))
         (grouped_df df_cleaned genres ratings year_range).
Proof.
  unfold grouped_df, Pandas.groupby_size.
  apply fold_count_row_witnessed; [apply incl_refl | constructor].
Qed.

(** * Further properties of the cleaning pass *)

Lemma mapM_app {A B : Type} (f : A -> option B) (a b : list A) :
  mapM f (a ++ b) = x <- mapM f a ;; y <- mapM f b ;; Some (x ++ y).
Proof.
  induction a as [|a0 a IH]; simpl.
  - destruct (mapM f b); reflexivity.
  - destruct (f a0) as [b0|]; simpl; [|reflexivity].
    rewrite IH. destruct (mapM f a); simpl; [|reflexivity].
    destruct (mapM f b); reflexivity.
Qed.

Section CleanerRows.

Variable py_float : string -> option pyfloat.

(** X1: the cleaning pass works row by row: cleaning two tables put end to
    end gives the two cleaned tables put end to end, and raises when
    either does. *)
Theorem clean_data_app (a b : DataFrame) (threshold : Z) :
  clean_data py_float (a ++ b) threshold
  = x <- clean_data py_float a threshold ;;
    y <- clean_data py_float b threshold ;;
    Some (x ++ y).
Proof.
  unfold clean_data, query_year, assign_User_Score, assign_Year_of_Release.
  rewrite filter_app, mapM_app.
  destruct (mapM _ (filter _ a)) as [ua|]; simpl; [|reflexivity].
  destruct (mapM _ (filter _ b)) as [ub|]; simpl.
  - rewrite mapM_app.
    destruct (mapM _ ua) as [ya|]; simpl; [|reflexivity].
    destruct (mapM _ ub) as [yb|]; simpl; [|reflexivity].
    unfold Pandas.dropna. rewrite filter_app. reflexivity.
  - destruct (mapM _ ua); reflexivity.
Qed.

Lemma clean_data_cons (r : Row) (l : DataFrame) (threshold : Z) :
  clean_data py_float (r :: l) threshold
  = x <- clean_data py_float [r] threshold ;;
    y <- clean_data py_float l threshold ;;
    Some (x ++ y).
Proof. exact (clean_data_app [r] l threshold). Qed.

(** What the pass does to a table of one row. *)
Lemma clean_data_single (r : Row) (threshold : Z) :
  clean_data py_float [r] threshold
  = if Pandas.ge_int (Year_of_Release r) threshold then
      c <- astype_float py_float (Pandas.replace_tbd (User_Score r)) ;;
      y <- Pandas.astype_int (Year_of_Release r) ;;
      Some (Pandas.dropna [set_Year_of_Release (set_User_Score r c) y])
    else Some [].
Proof.
  unfold clean_data, query_year, assign_User_Score, assign_Year_of_Release.
  simpl. destruct (Pandas.ge_int (Year_of_Release r) threshold); [|reflexivity].
  simpl. destruct (astype_float py_float (Pandas.replace_tbd (User_Score r)));
    simpl; [|reflexivity].
  destruct (Pandas.astype_int (Year_of_Release r)); reflexivity.
Qed.

Lemma astype_float_None (c : cell) :
  astype_float py_float (Pandas.replace_tbd c) = None <->
  exists s, c = Str s /\ s <> "tbd"%string /\ py_float s = None.
Proof.
  destruct c as [|x|b|s]; simpl.
  - split; [discriminate | intros [s [E _]]; discriminate].
  - split; [discriminate | intros [s [E _]]; discriminate].
  - split; [discriminate | intros [s [E _]]; discriminate].
  - destruct (String.eqb_spec s "tbd") as [->|Hne]; simpl.
    + split; [discriminate | intros [s [[= <-] [H _]]]; now elim H].
    + destruct (py_float s) as [f|] eqn:E; simpl.
      * split; [discriminate | intros [s' [[= <-] [_ H]]]; congruence].
      * split; [eauto | reflexivity].
Qed.

Lemma clean_data_single_None (r : Row) (threshold : Z) :
  clean_data py_float [r] threshold = None <-> unreadable py_float threshold r.
Proof.
  rewrite clean_data_single. unfold unreadable.
  destruct (Pandas.ge_int (Year_of_Release r) threshold) eqn:Hge.
  - rewrite <- astype_float_None.
    destruct (astype_float py_float (Pandas.replace_tbd (User_Score r))); simpl.
    + unfold Pandas.ge_int in Hge.
      destruct (Year_of_Release r); [simpl | discriminate].
      split; [discriminate | intros [_ H]; discriminate].
    + split; auto.
  - split; [discriminate | intros [H _]; discriminate].
Qed.

(** On the tables of this development, whose years are finite or missing,
    the pass raises exactly when a score is unreadable. *)
Lemma clean_data_None_iff (raw : DataFrame) (threshold : Z) :
  clean_data py_float raw threshold = None <->
  Exists (unreadable py_float threshold) raw.
Proof.
  induction raw as [|r l IH].
  - split; [discriminate | intros H; inversion H].
  - rewrite clean_data_cons, Exists_cons, <- IH, <- clean_data_single_None.
    destruct (clean_data py_float [r] threshold); simpl.
    + destruct (clean_data py_float l threshold); simpl.
      * split; [discriminate | intros [H|H]; discriminate].
      * split; auto.
    + split; auto.
Qed.

(** X2: the pass raises whenever some row at or above the threshold has a
    user score, other than 'tbd', that [float] cannot read. *)
Theorem clean_data_unreadable_raises (raw : DataFrame) (threshold : Z) :
  Exists (unreadable py_float threshold) raw ->
  clean_data py_float raw threshold = None.
Proof. apply clean_data_None_iff. Qed.

Lemma clean_data_single_Some (r : Row) (threshold : Z) (x : DataFrame) :
  clean_data py_float [r] threshold = Some x ->
  x = [] \/ exists r', x = [r'] /\ cleaned_from py_float r r'
                       /\ Pandas.ge_int (Year_of_Release r) threshold = true.
Proof.
  rewrite clean_data_single.
  destruct (Pandas.ge_int (Year_of_Release r) threshold) eqn:Hge;
    [|intros [= <-]; auto].
  intros H. apply bind_Some in H. destruct H as [c [Hc H]].
  apply bind_Some in H. destruct H as [y [Hy [= <-]]].
  unfold Pandas.dropna. simpl.
  destruct (Pandas.complete _) eqn:Hcomp; [right | auto].
  eexists. split; [reflexivity|]. split; [|reflexivity].
  destruct (complete_fields _ Hcomp) as [_ [_ [_ [_ [Hna _]]]]]. simpl in Hna.
  unfold cleaned_from. simpl.
  split; [reflexivity|]. split; [reflexivity|]. split; [reflexivity|].
  split; [reflexivity|]. split; [reflexivity|]. split; [|split].
  - destruct (Year_of_Release r) as [y0|]; [|discriminate].
    simpl in Hy. injection Hy as <-. eauto.
  - destruct (astype_float_cases _ _ _ Hc) as [->|Hf]; [discriminate | exact Hf].
  - destruct (User_Score r) as [|u|b|s] eqn:Eu; simpl in Hc.
    + injection Hc as <-. discriminate.
    + injection Hc as <-. left. reflexivity.
    + injection Hc as <-. left. reflexivity.
    + destruct (String.eqb_spec s "tbd") as [->|Hne]; simpl in Hc.
      * injection Hc as <-. discriminate.
      * apply bind_Some in Hc. destruct Hc as [f [Hf [= <-]]].
        right. exists s, f. auto.
Qed.

(** X3: the cleaned rows are, one for one and in the same order, a
    selection of the raw rows: each has the platform, genre, critic score,
    rating and other cells of its raw row, that row's year cast to a 64-bit
    integer and that row's user score as a float.  No row is invented,
    duplicated or moved. *)
Theorem clean_data_provenance (raw : DataFrame) (threshold : Z) (cleaned : DataFrame) :
  clean_data py_float raw threshold = Some cleaned ->
  exists kept, subseq kept raw /\ Forall2 (cleaned_from py_float) kept cleaned.
Proof.
  revert cleaned. induction raw as [|r l IH]; intros cleaned H.
  - injection H as <-. exists []. split; constructor.
  - rewrite clean_data_cons in H.
    apply bind_Some in H. destruct H as [x [Hx H]].
    apply bind_Some in H. destruct H as [y [Hy [= <-]]].
    destruct (IH y Hy) as [kept [Hsub Hall]].
    destruct (clean_data_single_Some _ _ _ Hx) as [->|[r' [-> [Hr' _]]]].
    + exists kept. split; [constructor; exact Hsub | exact Hall].
    + exists (r :: kept). split; [constructor; exact Hsub|].
      simpl. constructor; assumption.
Qed.

Lemma bind_nil_app (m : option DataFrame) :
  (x <- Some [] ;; y <- m ;; Some (x ++ y)) = m.
Proof. destruct m; reflexivity. Qed.

(** On the tables of this development the rows whose user score is 'tbd'
    can be taken out beforehand. *)
Lemma clean_data_without_tbd (raw : DataFrame) (threshold : Z) :
  clean_data py_float raw threshold
  = clean_data py_float (filter (fun r => negb (is_tbd r)) raw) threshold.
Proof.
  induction raw as [|r l IH]; [reflexivity|].
  simpl. destruct (is_tbd r) eqn:Ht; simpl.
  - rewrite clean_data_cons, <- IH.
    assert (E : clean_data py_float [r] threshold = Some []).
    { rewrite clean_data_single. unfold is_tbd in Ht.
      destruct (User_Score r) as [|u|b|s] eqn:Eu; try discriminate.
      destruct (Pandas.ge_int (Year_of_Release r) threshold) eqn:Hge; [|reflexivity].
      simpl. rewrite Ht. simpl.
      unfold Pandas.ge_int in Hge.
      destruct (Year_of_Release r) as [y|] eqn:Ey; [simpl | discriminate].
      unfold Pandas.dropna, Pandas.complete. simpl.
      rewrite !andb_false_r. reflexivity. }
    rewrite E. apply bind_nil_app.
  - rewrite clean_data_cons, (clean_data_cons r (filter _ l)), IH. reflexivity.
Qed.

(** X4: the rows whose user score is 'tbd' leave no trace in the cleaned
    table: when the pass returns a table, it returns the same table on the
    raw table without those rows. *)
Theorem clean_data_drops_tbd (raw : DataFrame) (threshold : Z) (cleaned : DataFrame) :
  clean_data py_float raw threshold = Some cleaned ->
  clean_data py_float (filter (fun r => negb (is_tbd r)) raw) threshold
  = Some cleaned.
Proof. intros H. rewrite <- clean_data_without_tbd. exact H. Qed.

End CleanerRows.

Section CleanerThresholds.

Variable py_float : string -> option pyfloat.

(** X5: a raw row at or above the threshold, with no missing cell and a
    user score that is a float other than NaN, or a string [float] reads as
    such a float, is kept: its cleaned form is a row of the cleaned
    table. *)
Theorem clean_data_keeps (raw : DataFrame) (threshold : Z) (cleaned : DataFrame)
        (r : Row) :
  clean_data py_float raw threshold = Some cleaned ->
  In r raw ->
  Pandas.ge_int (Year_of_Release r) threshold = true ->
  Pandas.complete r = true ->
  (is_float (User_Score r) \/
   exists s f, User_Score r = Str s /\ s <> "tbd"%string
               /\ py_float s = Some f /\ f <> float_nan) ->
  exists r', In r' cleaned /\ cleaned_from py_float r r'.
Proof.
  revert cleaned. induction raw as [|a l IH]; intros cleaned H Hin Hge Hcomp Hu;
    [contradiction|].
  rewrite clean_data_cons in H.
  apply bind_Some in H. destruct H as [x [Hx H]].
  apply bind_Some in H. destruct H as [y [Hy [= <-]]].
  destruct Hin as [->|Hin].
  - assert (Hne : x <> []).
    { rewrite clean_data_single, Hge in Hx.
      assert (Hc : exists c, astype_float py_float (Pandas.replace_tbd (User_Score r))
                             = Some c /\ Pandas.notna c = true).
      { destruct Hu as [Hf|[s [f [Es [Hne [Hs Hf]]]]]].
        - exists (User_Score r). split; [apply is_float_fixed; exact Hf|].
          destruct Hf as [[u ->]|[b ->]]; reflexivity.
        - exists (Pandas.of_float f). rewrite Es. simpl.
          apply String.eqb_neq in Hne. rewrite Hne. simpl. rewrite Hs.
          split; [reflexivity|]. destruct f; [now elim Hf | |]; reflexivity. }
      destruct Hc as [c [Hc Hna]].
      rewrite Hc in Hx. simpl in Hx.
      unfold Pandas.ge_int in Hge.
      destruct (Year_of_Release r) as [y0|] eqn:Ey; [|discriminate].
      simpl in Hx. injection Hx as <-.
      unfold Pandas.dropna. simpl.
      replace (Pandas.complete _) with true; [discriminate|].
      symmetry. revert Hcomp. unfold Pandas.complete. simpl. rewrite Ey, Hna.
      destruct (Platform r), (Genre r), (Pandas.notna (Critic_Score r)),
        (Rating r), (Pandas.notna (User_Score r)); simpl; try discriminate; auto. }
    destruct (clean_data_single_Some _ _ _ _ Hx) as [->|[r' [-> [Hr' _]]]];
      [now elim Hne|].
    exists r'. split; [left; reflexivity | exact Hr'].
  - destruct (IH y Hy Hin Hge Hcomp Hu) as [r' [Hr' Hc]].
    exists r'. split; [apply in_or_app; right; exact Hr' | exact Hc].
Qed.



End CleanerThresholds.

Lemma clean_data_unreadable_raises_witness :
  Exists (unreadable DecimalFloat.float 2000)
         [Scenario.game 2005 "Action" "E" "PS2" 80 "n/a"] /\
  clean_data DecimalFloat.float [Scenario.game 2005 "Action" "E" "PS2" 80 "n/a"] 2000
  = None.
Proof.
  assert (H : Exists (unreadable DecimalFloat.float 2000)
                     [Scenario.game 2005 "Action" "E" "PS2" 80 "n/a"]).
  { constructor. split; [reflexivity|]. exists "n/a"%string.
    split; [reflexivity | split; [discriminate | reflexivity]]. }
  split; [exact H|].
  apply (clean_data_unreadable_raises DecimalFloat.float _ 2000 H).
Defined.

Lemma clean_data_provenance_witness :
  clean_data DecimalFloat.float Scenario.raw 2000 = Some Scenario.cleaned /\
  exists kept, subseq kept Scenario.raw
               /\ Forall2 (cleaned_from DecimalFloat.float) kept Scenario.cleaned.
Proof.
  split.
  - reflexivity.
  - apply (clean_data_provenance DecimalFloat.float Scenario.raw 2000). reflexivity.
Defined.

Lemma clean_data_drops_tbd_witness :
  clean_data DecimalFloat.float Scenario.raw 2000 = Some Scenario.cleaned /\
  clean_data DecimalFloat.float
             (filter (fun r => negb (is_tbd r)) Scenario.raw) 2000
  = Some Scenario.cleaned.
Proof.
  split.
  - reflexivity.
  - apply (clean_data_drops_tbd DecimalFloat.float Scenario.raw 2000). reflexivity.
Defined.

Lemma clean_data_keeps_witness :
  clean_data DecimalFloat.float Scenario.raw 2000 = Some Scenario.cleaned /\
  exists r', In r' Scenario.cleaned
             /\ cleaned_from DecimalFloat.float
                             (Scenario.game 2005 "Action" "E" "PS2" 80 "8.5") r'.
Proof.
  split.
  - reflexivity.
  - apply (clean_data_keeps DecimalFloat.float Scenario.raw 2000 Scenario.cleaned
                            (Scenario.game 2005 "Action" "E" "PS2" 80 "8.5")).
    + reflexivity.
    + left. reflexivity.
    + reflexivity.
    + reflexivity.
    + right. exists "8.5"%string, (float_num (85 # 10)).
      split; [reflexivity|]. split; [discriminate|].
      split; [reflexivity | discriminate].
Defined.


(** * Further properties of the selection *)

Lemma filter_subseq {A : Type} (f : A -> bool) (l : list A) : subseq (filter f l) l.
Proof.
  induction l as [|a l IH]; simpl.
  - constructor.
  - destruct (f a); constructor; exact IH.
Qed.

Lemma filter_comm {A : Type} (f g : A -> bool) (l : list A) :
  filter f (filter g l) = filter g (filter f l).
Proof.
  induction l as [|a l IH]; simpl; [reflexivity|].
  destruct (g a) eqn:Eg, (f a) eqn:Ef; simpl; rewrite ?Eg, ?Ef, IH; reflexivity.
Qed.

Lemma length_filter_split {A : Type} (f g h : A -> bool) (l : list A) :
  (forall a, In a l -> f a = g a || h a) ->
  (forall a, In a l -> g a && h a = false) ->
  length (filter f l) = length (filter g l) + length (filter h l).
Proof.
  induction l as [|a l IH]; simpl; intros Hu Hd; [reflexivity|].
  assert (Ha := Hu a (or_introl eq_refl)).
  assert (Hb := Hd a (or_introl eq_refl)).
  rewrite Ha.
  assert (IH' : length (filter f l) = length (filter g l) + length (filter h l)).
  { apply IH; intros b Hb'; [apply Hu | apply Hd]; right; exact Hb'. }
  destruct (g a), (h a); simpl in *; try discriminate; lia.
Qed.

Lemma isin_same_values (c : option string) (l1 l2 : list string) :
  (forall s, In s l1 <-> In s l2) -> Pandas.isin c l1 = Pandas.isin c l2.
Proof.
  intros H. apply eq_true_iff_eq. rewrite !isin_spec.
  split; intros [s [E Hs]]; exists s; split; auto; apply H; exact Hs.
Qed.


(** X7: the filtered subset is the table with some rows left out: the rows
    that remain keep their order, and none is repeated or added. *)
Theorem filtered_df_subseq
        (df_cleaned : DataFrame) (genres ratings : list string) (year_range : Q * Q) :
  subseq (filtered_df df_cleaned genres ratings year_range) df_cleaned.
Proof. apply filter_subseq. Qed.

(** X8: narrowing a subset by a second selection gives the same rows
    whichever selection is applied first, and applying a selection twice
    changes nothing. *)
Theorem filtered_df_narrowing
        (df_cleaned : DataFrame) (genres1 ratings1 genres2 ratings2 : list string)
        (range1 range2 : Q * Q) :
  filtered_df (filtered_df df_cleaned genres1 ratings1 range1) genres2 ratings2 range2
  = filtered_df (filtered_df df_cleaned genres2 ratings2 range2) genres1 ratings1 range1
  /\
  filtered_df (filtered_df df_cleaned genres1 ratings1 range1) genres1 ratings1 range1
  = filtered_df df_cleaned genres1 ratings1 range1.
Proof.
  unfold filtered_df. split.
  - apply filter_comm.
  - apply filter_fixed, Forall_forall. intros r Hr.
    apply filter_In in Hr. tauto.
Qed.

(** X9: the subset depends on which genres and ratings are selected, not on
    their order or on repetitions in the lists the widgets send. *)
Theorem filtered_df_same_values
        (df_cleaned : DataFrame) (genres1 genres2 ratings1 ratings2 : list string)
        (year_range : Q * Q) :
  (forall g, In g genres1 <-> In g genres2) ->
  (forall a, In a ratings1 <-> In a ratings2) ->
  filtered_df df_cleaned genres1 ratings1 year_range
  = filtered_df df_cleaned genres2 ratings2 year_range.
Proof.
  intros Hg Ha. unfold filtered_df. apply filter_ext. intros r. unfold mask.
  rewrite (isin_same_values _ _ _ Hg), (isin_same_values _ _ _ Ha). reflexivity.
Qed.

Lemma filtered_df_same_values_witness :
  (forall g, In g ["Action"; "RPG"; "Action"]%string <-> In g ["RPG"; "Action"]%string) /\
  (forall a, In a ["E"]%string <-> In a ["E"; "E"]%string) /\
  filtered_df Scenario.cleaned ["Action"; "RPG"; "Action"]%string ["E"]%string
              (2000 # 1, 2016 # 1)%Q
  = filtered_df Scenario.cleaned ["RPG"; "Action"]%string ["E"; "E"]%string
                (2000 # 1, 2016 # 1)%Q.
Proof.
  assert (Hg : forall g, In g ["Action"; "RPG"; "Action"]%string
                         <-> In g ["RPG"; "Action"]%string).
  { intros g. simpl. tauto. }
  assert (Ha : forall a, In a ["E"]%string <-> In a ["E"; "E"]%string).
  { intros a. simpl. tauto. }
  split; [exact Hg|]. split; [exact Ha|].
  apply (filtered_df_same_values Scenario.cleaned _ _ _ _ (2000 # 1, 2016 # 1)%Q Hg Ha).
Defined.

(** X10: the count over two lists of genres with no genre in common is the
    sum of the counts over each. *)
Theorem game_count_disjoint_genres
        (df_cleaned : DataFrame) (genres1 genres2 ratings : list string)
        (year_range : Q * Q) :
  (forall g, In g genres1 -> ~ In g genres2) ->
  game_count df_cleaned (genres1 ++ genres2) ratings year_range
  = game_count df_cleaned genres1 ratings year_range
    + game_count df_cleaned genres2 ratings year_range.
Proof.
  intros Hd. unfold game_count, filtered_df.
  apply length_filter_split; intros r _; unfold mask.
  - assert (E : Pandas.isin (Genre r) (genres1 ++ genres2)
                = Pandas.isin (Genre r) genres1 || Pandas.isin (Genre r) genres2).
    { unfold Pandas.isin. destruct (Genre r); [apply existsb_app | reflexivity]. }
    rewrite E.
    destruct (Pandas.isin (Genre r) genres1), (Pandas.isin (Genre r) genres2),
      (Pandas.isin (Rating r) ratings), (Pandas.between _ _ _); reflexivity.
  - destruct (Pandas.isin (Genre r) genres1) eqn:E1; [|reflexivity].
    destruct (Pandas.isin (Genre r) genres2) eqn:E2;
      [|simpl; rewrite andb_false_r; reflexivity].
    apply isin_spec in E1, E2.
    destruct E1 as [s [Es H1]]. destruct E2 as [s' [Es' H2]].
    rewrite Es in Es'. injection Es' as <-. elim (Hd s H1 H2).
Qed.

Lemma game_count_disjoint_genres_witness :
  (forall g, In g ["Action"%string] -> ~ In g ["RPG"%string]) /\
  game_count Scenario.cleaned (["Action"%string] ++ ["RPG"%string]) ["E"; "M"]%string
             (2000 # 1, 2016 # 1)%Q
  = game_count Scenario.cleaned ["Action"%string] ["E"; "M"]%string (2000 # 1, 2016 # 1)%Q
    + game_count Scenario.cleaned ["RPG"%string] ["E"; "M"]%string (2000 # 1, 2016 # 1)%Q.
Proof.
  assert (H : forall g, In g ["Action"%string] -> ~ In g ["RPG"%string]).
  { intros g [<-|[]] [E|[]]. discriminate E. }
  split; [exact H|].
  apply (game_count_disjoint_genres Scenario.cleaned _ _ _ _ H).
Defined.



(** * Further properties of the aggregation *)

Lemma key_lt_distinct (g1 g2 : GroupRow) :
  key_lt g1 g2 ->
  ~ ((group_year g1 == group_year g2)%Q /\ group_platform g1 = group_platform g2).
Proof.
  intros [Hlt|[_ Hp]] [Ey Ep].
  - exact (Qlt_not_eq _ _ Hlt Ey).
  - rewrite Ep, string_compare_refl in Hp. discriminate.
Qed.

(** X12: the size of every group of the series is exactly the number of
    records of the filtered subset that have the year and the platform of
    the group. *)
Theorem grouped_df_sizes
        (df_cleaned : DataFrame) (genres ratings : list string) (year_range : Q * Q) :
  Forall (fun g =>
            Number_of_Games g
            = group_size (group_year g) (group_platform g)
                         (filtered_df df_cleaned genres ratings year_range))
         (grouped_df df_cleaned genres ratings year_range).
Proof.
  apply Forall_forall. intros g Hg. apply groupby_size_counts. exact Hg.
Qed.

(** X13: no (year, platform) pair appears twice in the series. *)
Theorem grouped_df_keys_distinct
        (df_cleaned : DataFrame) (genres ratings : list string) (year_range : Q * Q) :
  ForallOrdPairs
    (fun g1 g2 =>
       ~ ((group_year g1 == group_year g2)%Q
          /\ group_platform g1 = group_platform g2))
    (grouped_df df_cleaned genres ratings year_range).
Proof.
  unfold grouped_df.
  induction (groupby_size_sorted (filtered_df df_cleaned genres ratings year_range))
    as [|g gs _ IH Hg]; constructor.
  - eapply Forall_impl; [|exact Hg]. intros g2. apply key_lt_distinct.
  - exact IH.
Qed.

(** X14: on a table that [clean_data] produced, every record of the
    filtered subset is counted: the series has a group with exactly its
    year and its platform. *)
Theorem grouped_df_covers
        (py_float : string -> option pyfloat)
        (raw : DataFrame) (threshold : Z) (df_cleaned : DataFrame)
        (genres ratings : list string) (year_range : Q * Q) :
  clean_data py_float raw threshold = Some df_cleaned ->
  Forall (fun r =>
            exists g, In g (grouped_df df_cleaned genres ratings year_range)
                      /\ Year_of_Release r = Some (group_year g)
                      /\ Platform r = Some (group_platform g))
         (filtered_df df_cleaned genres ratings year_range).
Proof.
  intros H.
  assert (Hrows := filtered_df_Forall cleaned_shape df_cleaned genres ratings year_range
                     (clean_data_shape _ _ _ _ H)).
  rewrite Forall_forall in Hrows.
  apply Forall_forall. intros r Hr.
  destruct (Hrows r Hr) as [[z [Hz _]] [[_ [_ [_ [[p Hp] _]]]] _]].
  unfold year_is in Hz.
  destruct (groupby_size_covers _ r _ p Hr Hz Hp) as [g [Hg [Ey Ep]]].
  exists g. split; [exact Hg|]. split; [|rewrite Ep; exact Hp].
  assert (Hw : Forall (group_witnessed (filtered_df df_cleaned genres ratings year_range))
                      (Pandas.groupby_size (filtered_df df_cleaned genres ratings year_range))).
  { apply fold_count_row_witnessed; [apply incl_refl | constructor]. }
  rewrite Forall_forall in Hw.
  destruct (Hw g Hg) as [_ [r2 [Hr2 [Hy2 _]]]].
  destruct (Hrows r2 Hr2) as [[z2 [Hz2 _]] _]. unfold year_is in Hz2.
  rewrite Hz2 in Hy2. injection Hy2 as Hy2.
  rewrite Hz, <- Hy2. rewrite <- Hy2 in Ey.
  unfold Qeq in Ey. simpl in Ey. rewrite !Z.mul_1_r in Ey. rewrite Ey. reflexivity.
Qed.

Lemma grouped_df_covers_witness :
  clean_data DecimalFloat.float Scenario.raw 2000 = Some Scenario.cleaned /\
  Forall (fun r =>
            exists g, In g (grouped_df Scenario.cleaned ["Action"%string] ["E"%string]
                                       (2000 # 1, 2016 # 1)%Q)
                      /\ Year_of_Release r = Some (group_year g)
                      /\ Platform r = Some (group_platform g))
         (filtered_df Scenario.cleaned ["Action"%string] ["E"%string]
                      (2000 # 1, 2016 # 1)%Q).
Proof.
  split.
  - reflexivity.
  - apply (grouped_df_covers DecimalFloat.float Scenario.raw 2000). reflexivity.
Defined.

(** X15: on a table that [clean_data] produced, the scatter plot gets one
    point per selected game, and every point has a user score that is a
    float other than NaN, a critic score that is not missing and one of the
    selected genres as its colour. *)
Theorem scatter_points_sound
        (py_float : string -> option pyfloat)
        (raw : DataFrame) (threshold : Z) (df_cleaned : DataFrame)
        (genres ratings : list string) (year_range : Q * Q) :
  clean_data py_float raw threshold = Some df_cleaned ->
  length (Layout.scatter_points df_cleaned genres ratings year_range)
  = game_count df_cleaned genres ratings year_range /\
  Forall (fun pt =>
            is_float (fst (fst pt)) /\
            snd (fst pt) <> NaN /\
            (exists g, snd pt = Some g /\ In g genres))
         (Layout.scatter_points df_cleaned genres ratings year_range).
Proof.
  intros H. unfold Layout.scatter_points, game_count. split.
  - apply length_map.
  - apply Forall_forall. intros pt Hpt. apply in_map_iff in Hpt.
    destruct Hpt as [r [<- Hr]]. simpl.
    assert (Hrows := clean_data_shape _ _ _ _ H). rewrite Forall_forall in Hrows.
    apply filtered_df_In in Hr. destruct Hr as [Hin [Hg _]].
    destruct (Hrows r Hin) as [_ [[_ [_ [_ [_ [Hc Hu]]]]] _]].
    auto.
Qed.

Lemma scatter_points_sound_witness :
  clean_data DecimalFloat.float Scenario.raw 2000 = Some Scenario.cleaned /\
  length (Layout.scatter_points Scenario.cleaned ["Action"%string] ["E"%string]
                                (2000 # 1, 2016 # 1)%Q)
  = game_count Scenario.cleaned ["Action"%string] ["E"%string] (2000 # 1, 2016 # 1)%Q.
Proof.
  split.
  - reflexivity.
  - apply (scatter_points_sound DecimalFloat.float Scenario.raw 2000 Scenario.cleaned
                                ["Action"%string] ["E"%string] (2000 # 1, 2016 # 1)%Q).
    reflexivity.
Defined.

(** * Properties of the layout *)

Section Unique.

Context {A : Type} (eqb : A -> A -> bool).

Lemma unique_incl (l : list A) (x : A) : In x (Series.unique eqb l) -> In x l.
Proof.
  revert x. induction l as [|c l IH]; simpl; intros x Hx; [exact Hx|].
  destruct Hx as [->|Hx]; [left; reflexivity|].
  apply filter_In in Hx. right. apply IH. tauto.
Qed.

(** Every cell has a first occurrence that stands for it. *)
Lemma unique_repr (l : list A) (x : A) :
  (forall a, eqb a a = true) ->
  (forall a b c, eqb a b = true -> eqb b c = true -> eqb a c = true) ->
  In x l -> exists x', In x' (Series.unique eqb l) /\ eqb x' x = true.
Proof.
  intros Hrefl Htrans. induction l as [|c l IH]; simpl; intros Hx; [contradiction|].
  destruct Hx as [->|Hx].
  - exists x. split; [left; reflexivity | apply Hrefl].
  - destruct (IH Hx) as [x' [Hx' E]].
    destruct (eqb c x') eqn:Ec.
    + exists c. split; [left; reflexivity | exact (Htrans _ _ _ Ec E)].
    + exists x'. split; [|exact E]. right. apply filter_In.
      split; [exact Hx' | rewrite Ec; reflexivity].
Qed.

Lemma unique_NoDup (l : list A) :
  (forall a, eqb a a = true) -> NoDup (Series.unique eqb l).
Proof.
  intros Hrefl. induction l as [|c l IH]; simpl; constructor.
  - intros Hc. apply filter_In in Hc. destruct Hc as [_ Hc].
    rewrite Hrefl in Hc. discriminate.
  - apply NoDup_filter. exact IH.
Qed.

End Unique.

Lemma cell_eqb_eq (a b : option string) : Series.cell_eqb a b = true <-> a = b.
Proof.
  destruct a as [x|], b as [y|]; simpl; try (split; [discriminate | congruence]).
  - rewrite String.eqb_eq. split; congruence.
  - tauto.
Qed.

Lemma unique_cell_In (l : list (option string)) (x : option string) :
  In x (Series.unique Series.cell_eqb l) <-> In x l.
Proof.
  split; [apply unique_incl|]. intros Hx.
  destruct (unique_repr Series.cell_eqb l x) as [x' [Hx' E]]; auto.
  - intros a. apply cell_eqb_eq. reflexivity.
  - intros a b c H1 H2. apply cell_eqb_eq in H1, H2. apply cell_eqb_eq. congruence.
  - apply cell_eqb_eq in E. subst x'. exact Hx'.
Qed.

Lemma NoDup_map_injective {A B : Type} (f : A -> B) (l : list A) :
  (forall a b, f a = f b -> a = b) -> NoDup l -> NoDup (map f l).
Proof.
  intros Hinj. induction 1 as [|a l Ha _ IH]; simpl; constructor; [|exact IH].
  intros Hin. apply in_map_iff in Hin. destruct Hin as [b [E Hb]].
  apply Hinj in E. subst b. contradiction.
Qed.

Lemma dropdown_options_spec (col : list (option string)) :
  let opts := map (fun c => Layout.mkOption c c) (Series.unique Series.cell_eqb col) in
  NoDup opts /\
  forall o, In o opts <-> Layout.label o = Layout.value o /\ In (Layout.value o) col.
Proof.
  simpl. split.
  - apply NoDup_map_injective.
    + intros a b [= E]. exact E.
    + apply unique_NoDup. intros a. apply cell_eqb_eq. reflexivity.
  - intros o. rewrite in_map_iff. split.
    + intros [c [<- Hc]]. simpl. split; [reflexivity|].
      apply unique_cell_In. exact Hc.
    + intros [E Hin]. exists (Layout.value o). split.
      * destruct o as [l v]. simpl in *. subst l. reflexivity.
      * apply unique_cell_In. exact Hin.
Qed.

(** X16: the options of the two dropdowns: each genre (rating) that occurs
    in the table is offered exactly once, nothing else is offered, and the
    label of an option is its value. *)
Theorem dropdown_options
        (df_cleaned : DataFrame) :
  (NoDup (Layout.options (Layout.genres_filter df_cleaned)) /\
   forall o, In o (Layout.options (Layout.genres_filter df_cleaned)) <->
             Layout.label o = Layout.value o /\
             exists r, In r df_cleaned /\ Genre r = Layout.value o) /\
  (NoDup (Layout.options (Layout.ratings_filter df_cleaned)) /\
   forall o, In o (Layout.options (Layout.ratings_filter df_cleaned)) <->
             Layout.label o = Layout.value o /\
             exists r, In r df_cleaned /\ Rating r = Layout.value o).
Proof.
  split.
  - destruct (dropdown_options_spec (map Genre df_cleaned)) as [Hn Hi].
    split; [exact Hn|]. intros o. simpl. rewrite Hi, in_map_iff.
    split; intros [E [r H]]; (split; [exact E|]); exists r; tauto.
  - destruct (dropdown_options_spec (map Rating df_cleaned)) as [Hn Hi].
    split; [exact Hn|]. intros o. simpl. rewrite Hi, in_map_iff.
    split; intros [E [r H]]; (split; [exact E|]); exists r; tauto.
Qed.

(** ** The year slider *)

Lemma Series_min_spec (col : list (option Q)) :
  match Series.min col with
  | Some m => In (Some m) col /\ forall y, In (Some y) col -> (m <= y)%Q
  | None => forall y, ~ In (Some y) col
  end.
Proof.
  induction col as [|[x|] col IH]; simpl.
  - intros y [].
  - destruct (Series.min col) as [m|].
    + destruct IH as [Hin Hle].
      destruct (Qle_bool x m) eqn:E.
      * apply Qle_bool_iff in E. split; [left; reflexivity|].
        intros y [[= <-]|Hy]; [apply Qle_refl|].
        eapply Qle_trans; [exact E | apply Hle; exact Hy].
      * split; [right; exact Hin|].
        intros y [[= <-]|Hy]; [|apply Hle; exact Hy].
        apply Qlt_le_weak, Qnot_le_lt. intros H.
        apply Qle_bool_iff in H. congruence.
    + split; [left; reflexivity|].
      intros y [[= <-]|Hy]; [apply Qle_refl | elim (IH y Hy)].
  - destruct (Series.min col) as [m|].
    + destruct IH as [Hin Hle]. split; [right; exact Hin|].
      intros y [Hy|Hy]; [discriminate | apply Hle; exact Hy].
    + intros y [Hy|Hy]; [discriminate | exact (IH y Hy)].
Qed.

Lemma Series_max_spec (col : list (option Q)) :
  match Series.max col with
  | Some m => In (Some m) col /\ forall y, In (Some y) col -> (y <= m)%Q
  | None => forall y, ~ In (Some y) col
  end.
Proof.
  induction col as [|[x|] col IH]; simpl.
  - intros y [].
  - destruct (Series.max col) as [m|].
    + destruct IH as [Hin Hle].
      destruct (Qle_bool m x) eqn:E.
      * apply Qle_bool_iff in E. split; [left; reflexivity|].
        intros y [[= <-]|Hy]; [apply Qle_refl|].
        eapply Qle_trans; [apply Hle; exact Hy | exact E].
      * split; [right; exact Hin|].
        intros y [[= <-]|Hy]; [|apply Hle; exact Hy].
        apply Qlt_le_weak, Qnot_le_lt. intros H.
        apply Qle_bool_iff in H. congruence.
    + split; [left; reflexivity|].
      intros y [[= <-]|Hy]; [apply Qle_refl | elim (IH y Hy)].
  - destruct (Series.max col) as [m|].
    + destruct IH as [Hin Hle]. split; [right; exact Hin|].
      intros y [Hy|Hy]; [discriminate | apply Hle; exact Hy].
    + intros y [Hy|Hy]; [discriminate | exact (IH y Hy)].
Qed.

Lemma mapM_None_iff {A B : Type} (f : A -> option B) (l : list A) :
  mapM f l = None <-> exists a, In a l /\ f a = None.
Proof.
  induction l as [|a l IH]; simpl.
  - split; [discriminate | intros [a [[] _]]].
  - destruct (f a) as [b|] eqn:E; simpl.
    + destruct (mapM f l) as [bs|]; simpl.
      * split; [discriminate|]. intros [x [[<-|Hx] Hf]]; [congruence|].
        destruct IH as [_ IH]. discriminate IH. eauto.
      * split; [|reflexivity]. intros _.
        destruct IH as [IH _]. destruct (IH eq_refl) as [x [Hx Hf]]. eauto.
    + split; [eauto | reflexivity].
Qed.

Lemma float_eqb_refl (a : option Q) : Series.float_eqb a a = true.
Proof. destruct a; simpl; [apply Qeq_bool_refl | reflexivity]. Qed.

Lemma float_eqb_trans (a b c : option Q) :
  Series.float_eqb a b = true -> Series.float_eqb b c = true ->
  Series.float_eqb a c = true.
Proof.
  destruct a, b, c; simpl; try discriminate; auto. apply Qeq_bool_trans.
Qed.

Lemma float_eqb_int (a b : Z) :
  Series.float_eqb (Some (inject_Z a)) (Some (inject_Z b)) = true -> a = b.
Proof.
  simpl. intros H. apply Qeq_bool_iff in H. unfold Qeq in H. simpl in H. lia.
Qed.

Lemma insert_Permutation (a : option Q) (l : list (option Q)) :
  Permutation (Numpy.insert a l) (a :: l).
Proof.
  induction l as [|b l IH]; simpl; [reflexivity|].
  destruct (Numpy.le a b); [reflexivity|].
  rewrite IH. apply perm_swap.
Qed.

Lemma sort_Permutation (l : list (option Q)) : Permutation (Numpy.sort l) l.
Proof.
  induction l as [|a l IH]; simpl; [reflexivity|].
  rewrite insert_Permutation, IH. reflexivity.
Qed.

Lemma le_total (a b : option Q) : Numpy.le a b = false -> Numpy.le b a = true.
Proof.
  destruct a as [x|], b as [y|]; simpl; try discriminate; auto.
  intros H. apply Qle_bool_iff, Qlt_le_weak, Qnot_le_lt. intros H'.
  apply Qle_bool_iff in H'. congruence.
Qed.

Lemma insert_Sorted (a : option Q) (l : list (option Q)) :
  Sorted (fun x y => Numpy.le x y = true) l ->
  Sorted (fun x y => Numpy.le x y = true) (Numpy.insert a l).
Proof.
  induction l as [|b l IH]; simpl; intros Hs.
  - repeat constructor.
  - apply Sorted_inv in Hs. destruct Hs as [Hs Hhd].
    destruct (Numpy.le a b) eqn:E.
    + constructor; [constructor; assumption | constructor; exact E].
    + constructor; [apply IH; exact Hs|].
      destruct l as [|c l]; simpl.
      * constructor. apply le_total. exact E.
      * destruct (Numpy.le a c); constructor.
        -- apply le_total. exact E.
        -- apply HdRel_inv in Hhd. exact Hhd.
Qed.

Lemma sort_Sorted (l : list (option Q)) :
  Sorted (fun x y => Numpy.le x y = true) (Numpy.sort l).
Proof.
  induction l as [|a l IH]; simpl; [constructor | apply insert_Sorted; exact IH].
Qed.

(** The cells the marks are made from are those of the column. *)
Lemma sorted_unique_In (col : list (option Q)) (x : option Q) :
  In x (Numpy.sort (Series.unique Series.float_eqb col)) -> In x col.
Proof.
  intros H. apply (Permutation_in _ (sort_Permutation _)) in H.
  apply unique_incl in H. exact H.
Qed.

Lemma sorted_unique_NaN (col : list (option Q)) :
  In None (Numpy.sort (Series.unique Series.float_eqb col)) <-> In None col.
Proof.
  split; [apply sorted_unique_In|]. intros H.
  destruct (unique_repr Series.float_eqb col None float_eqb_refl float_eqb_trans H)
    as [x' [Hx' E]].
  destruct x' as [y|]; [discriminate|].
  apply (Permutation_in _ (Permutation_sym (sort_Permutation _))). exact Hx'.
Qed.

Lemma year_marks_None (t : DataFrame) :
  Layout.year_marks t = None <-> exists r, In r t /\ Year_of_Release r = None.
Proof.
  unfold Layout.year_marks.
  destruct (mapM Python.int _) as [years|] eqn:E; simpl.
  - split; [discriminate|]. intros [r [Hr Hy]].
    assert (Hn : mapM Python.int
                   (Numpy.sort (Series.unique Series.float_eqb
                                              (map Year_of_Release t))) = None).
    { apply mapM_None_iff. exists None. split; [|reflexivity].
      apply sorted_unique_NaN. rewrite <- Hy. apply in_map. exact Hr. }
    congruence.
  - split; [|reflexivity]. intros _.
    apply mapM_None_iff in E. destruct E as [x [Hx Hf]].
    destruct x as [y|]; [discriminate|].
    apply sorted_unique_NaN, in_map_iff in Hx.
    destruct Hx as [r [Hy Hr]]. eauto.
Qed.

(** On the tables of this development, whose years are finite or missing,
    the slider cannot be built exactly when a year is missing. *)
Lemma year_range_filter_None_iff (df_cleaned : DataFrame) :
  Layout.year_range_filter df_cleaned = None <->
  exists r, In r df_cleaned /\ Year_of_Release r = None.
Proof.
  rewrite <- year_marks_None. unfold Layout.year_range_filter.
  destruct (Layout.year_marks df_cleaned); simpl; split; congruence.
Qed.

(** X17: the slider cannot be built from a table in which some row has no
    year: [int] raises on NaN while the marks are made. *)
Theorem year_range_filter_missing_year (df_cleaned : DataFrame) :
  (exists r, In r df_cleaned /\ Year_of_Release r = None) ->
  Layout.year_range_filter df_cleaned = None.
Proof. apply year_range_filter_None_iff. Qed.

Lemma year_range_filter_missing_year_witness :
  (exists r, In r Scenario.raw /\ Year_of_Release r = None) /\
  Layout.year_range_filter Scenario.raw = None.
Proof.
  assert (H : exists r, In r Scenario.raw /\ Year_of_Release r = None).
  { eexists. split; [do 5 right; left; reflexivity | reflexivity]. }
  split; [exact H|].
  apply (year_range_filter_missing_year Scenario.raw H).
Defined.

(** X18: when the slider is built, its initial value is the pair of its
    ends; on a table that is not empty both ends are years of rows of the
    table, and every row has its year between them. *)
Theorem year_range_filter_bounds (df_cleaned : DataFrame) (s : Layout.RangeSlider) :
  Layout.year_range_filter df_cleaned = Some s ->
  Layout.slider_value s = (Layout.slider_min s, Layout.slider_max s) /\
  (df_cleaned <> [] ->
   exists lo hi,
     Layout.slider_min s = Some lo /\ Layout.slider_max s = Some hi /\
     (exists r, In r df_cleaned /\ Year_of_Release r = Some lo) /\
     (exists r, In r df_cleaned /\ Year_of_Release r = Some hi) /\
     forall r, In r df_cleaned ->
               exists y, Year_of_Release r = Some y /\ (lo <= y)%Q /\ (y <= hi)%Q).
Proof.
  intros H.
  assert (Hall : forall r, In r df_cleaned -> exists y, Year_of_Release r = Some y).
  { intros r Hr. destruct (Year_of_Release r) as [y|] eqn:E; [eauto|].
    assert (Hn : Layout.year_range_filter df_cleaned = None)
      by (apply year_range_filter_None_iff; eauto).
    congruence. }
  unfold Layout.year_range_filter in H.
  apply bind_Some in H. destruct H as [m [_ [= <-]]]. simpl.
  split; [reflexivity|]. intros Hne.
  assert (Hmin := Series_min_spec (map Year_of_Release df_cleaned)).
  assert (Hmax := Series_max_spec (map Year_of_Release df_cleaned)).
  destruct df_cleaned as [|r0 rest]; [now elim Hne|].
  destruct (Hall r0 (or_introl eq_refl)) as [y0 Hy0].
  assert (Hin0 : In (Some y0) (map Year_of_Release (r0 :: rest))).
  { rewrite <- Hy0. apply in_map. left. reflexivity. }
  destruct (Series.min _) as [lo|]; [|elim (Hmin y0 Hin0)].
  destruct (Series.max _) as [hi|]; [|elim (Hmax y0 Hin0)].
  destruct Hmin as [Hlo Hle]. destruct Hmax as [Hhi Hge].
  exists lo, hi. split; [reflexivity|]. split; [reflexivity|].
  apply in_map_iff in Hlo, Hhi.
  destruct Hlo as [rl [Hl1 Hl2]]. destruct Hhi as [rh [Hh1 Hh2]].
  split; [eauto|]. split; [eauto|].
  intros r Hr. destruct (Hall r Hr) as [y Hy]. exists y.
  assert (Hin : In (Some y) (map Year_of_Release (r0 :: rest))).
  { rewrite <- Hy. apply in_map. exact Hr. }
  auto.
Qed.

Lemma year_range_filter_bounds_witness :
  Layout.year_range_filter Scenario.cleaned
  = Some (Layout.mkRangeSlider (Some (2005 # 1)%Q) (Some (2010 # 1)%Q)
            (Some (2005 # 1)%Q, Some (2010 # 1)%Q) 1
            [("2005", "2005"); ("2010", "2010")]%string) /\
  (Scenario.cleaned <> [] ->
   exists lo hi,
     Some (2005 # 1)%Q = Some lo /\ Some (2010 # 1)%Q = Some hi /\
     (exists r, In r Scenario.cleaned /\ Year_of_Release r = Some lo) /\
     (exists r, In r Scenario.cleaned /\ Year_of_Release r = Some hi) /\
     forall r, In r Scenario.cleaned ->
               exists y, Year_of_Release r = Some y /\ (lo <= y)%Q /\ (y <= hi)%Q).
Proof.
  split.
  - reflexivity.
  - apply (year_range_filter_bounds Scenario.cleaned
             (Layout.mkRangeSlider (Some (2005 # 1)%Q) (Some (2010 # 1)%Q)
                (Some (2005 # 1)%Q, Some (2010 # 1)%Q) 1
                [("2005", "2005"); ("2010", "2010")]%string)).
    reflexivity.
Defined.

(** ** The marks of the slider *)

Lemma to_int_proper (z : Z) :
  Z.to_int z <> Decimal.Pos Decimal.Nil /\ Z.to_int z <> Decimal.Neg Decimal.Nil.
Proof.
  assert (H : Z.to_int z = Decimal.norm (Z.to_int z)).
  { rewrite <- DecimalZ.to_of, DecimalZ.of_to. reflexivity. }
  split; intros E; rewrite E in H; discriminate H.
Qed.

(** [str] tells integers apart. *)
Lemma str_injective (a b : Z) : Python.str a = Python.str b -> a = b.
Proof.
  unfold Python.str. intros H. apply DecimalZ.to_int_inj.
  destruct (to_int_proper a) as [Ha1 Ha2]. destruct (to_int_proper b) as [Hb1 Hb2].
  assert (Ea := NilZero.isi (Z.to_int a) Ha1 Ha2).
  assert (Eb := NilZero.isi (Z.to_int b) Hb1 Hb2).
  rewrite H in Ea. congruence.
Qed.

Lemma dict_set_fresh (d : list (string * string)) (k v : string) :
  ~ In k (map fst d) -> Python.dict_set d k v = d ++ [(k, v)].
Proof.
  induction d as [|[k' v'] d IH]; simpl; intros Hk; [reflexivity|].
  destruct (String.eqb_spec k' k) as [->|_]; [elim Hk; auto|].
  rewrite IH; [reflexivity | tauto].
Qed.

Lemma marks_of_distinct (zs : list Z) (acc : list (string * string)) :
  NoDup zs ->
  (forall z, In z zs -> ~ In (Python.str z) (map fst acc)) ->
  fold_left (fun d release_year =>
               Python.dict_set d (Python.str release_year) (Python.str release_year))
            zs acc
  = acc ++ map (fun z => (Python.str z, Python.str z)) zs.
Proof.
  intros Hnd. revert acc. induction Hnd as [|z zs Hz _ IH]; simpl; intros acc Hacc.
  - rewrite app_nil_r. reflexivity.
  - rewrite dict_set_fresh by (apply Hacc; left; reflexivity).
    rewrite IH.
    + rewrite <- app_assoc. reflexivity.
    + intros z' Hz'. rewrite map_app, in_app_iff. simpl.
      intros [H|[H|[]]].
      * exact (Hacc z' (or_intror Hz') H).
      * apply str_injective in H. subst z'. contradiction.
Qed.

Lemma all_int_map (l : list (option Q)) :
  (forall x, In x l -> exists z, x = Some (inject_Z z)) ->
  exists zs, l = map (fun z => Some (inject_Z z)) zs.
Proof.
  induction l as [|x l IH]; intros H.
  - exists []. reflexivity.
  - destruct (H x (or_introl eq_refl)) as [z ->].
    destruct IH as [zs ->]; [intros y Hy; apply H; right; exact Hy|].
    exists (z :: zs). reflexivity.
Qed.

Lemma mapM_int_map (zs : list Z) :
  mapM Python.int (map (fun z => Some (inject_Z z)) zs) = Some zs.
Proof.
  induction zs as [|z zs IH]; simpl; [reflexivity|].
  rewrite IH, Qtrunc_inject_Z. reflexivity.
Qed.

Lemma sorted_int_map (zs : list Z) :
  Sorted (fun x y => Numpy.le x y = true) (map (fun z => Some (inject_Z z)) zs) ->
  NoDup zs -> StronglySorted Z.lt zs.
Proof.
  induction zs as [|a zs IH]; simpl; intros Hs Hnd; [constructor|].
  apply Sorted_StronglySorted in Hs.
  - apply StronglySorted_inv in Hs. destruct Hs as [Hs Ha].
    apply NoDup_cons_iff in Hnd. destruct Hnd as [Hna Hnd].
    constructor.
    + apply IH; [apply StronglySorted_Sorted; exact Hs | exact Hnd].
    + apply Forall_forall. intros b Hb.
      rewrite Forall_forall in Ha.
      specialize (Ha (Some (inject_Z b)) (in_map _ _ _ Hb)). simpl in Ha.
      apply Qle_bool_iff in Ha. rewrite <- Zle_Qle in Ha.
      assert (a <> b) by (intros ->; contradiction). lia.
  - intros x y z Hxy Hyz.
    destruct x as [x|], y as [y|], z as [z|]; simpl in *; try discriminate; auto.
    apply Qle_bool_iff. apply Qle_bool_iff in Hxy, Hyz.
    eapply Qle_trans; eauto.
Qed.

(** X19: on a table that [clean_data] produced the marks of the slider are
    the years of the table, each once, in ascending order, every mark
    labelled with the decimal numeral of its year. *)
Theorem year_marks_cleaned
        (py_float : string -> option pyfloat)
        (raw : DataFrame) (threshold : Z) (df_cleaned : DataFrame) :
  clean_data py_float raw threshold = Some df_cleaned ->
  exists years,
    Layout.year_marks df_cleaned
    = Some (map (fun z => (Python.str z, Python.str z)) years) /\
    StronglySorted Z.lt years /\
    forall z, In z years <-> exists r, In r df_cleaned /\ year_is r z.
Proof.
  intros H.
  assert (Hrows := clean_data_shape _ _ _ _ H). rewrite Forall_forall in Hrows.
  set (col := map Year_of_Release df_cleaned).
  assert (Hcol : forall x, In x col -> exists z, x = Some (inject_Z z)).
  { intros x Hx. apply in_map_iff in Hx. destruct Hx as [r [<- Hr]].
    destruct (Hrows r Hr) as [[z [Hz _]] _]. eauto. }
  destruct (all_int_map (Numpy.sort (Series.unique Series.float_eqb col)))
    as [zs Hzs].
  { intros x Hx. apply Hcol, sorted_unique_In. exact Hx. }
  assert (Hnd : NoDup zs).
  { apply (NoDup_map_inv (fun z => Some (inject_Z z))). rewrite <- Hzs.
    apply (Permutation_NoDup (Permutation_sym (sort_Permutation _))).
    apply unique_NoDup, float_eqb_refl. }
  exists zs. split; [|split].
  - unfold Layout.year_marks. fold col. rewrite Hzs, mapM_int_map. simpl.
    rewrite marks_of_distinct; [reflexivity | exact Hnd | intros z _ []].
  - apply sorted_int_map; [|exact Hnd]. rewrite <- Hzs. apply sort_Sorted.
  - intros z. split.
    + intros Hz.
      assert (Hin : In (Some (inject_Z z)) col).
      { apply sorted_unique_In. rewrite Hzs.
        apply (in_map (fun z => Some (inject_Z z))). exact Hz. }
      apply in_map_iff in Hin. destruct Hin as [r [Hy Hr]]. eauto.
    + intros [r [Hr Hy]]. unfold year_is in Hy.
      assert (Hin : In (Some (inject_Z z)) col).
      { rewrite <- Hy. apply in_map. exact Hr. }
      destruct (unique_repr Series.float_eqb col _ float_eqb_refl float_eqb_trans Hin)
        as [x' [Hx' E]].
      destruct (Hcol x' (unique_incl _ _ _ Hx')) as [z' ->].
      apply float_eqb_int in E. subst z'.
      apply (Permutation_in _ (Permutation_sym (sort_Permutation _))) in Hx'.
      rewrite Hzs in Hx'. apply in_map_iff in Hx'.
      destruct Hx' as [z' [[= E] Hz']]. subst z'. exact Hz'.
Qed.

Lemma year_marks_cleaned_witness :
  clean_data DecimalFloat.float Scenario.raw 2000 = Some Scenario.cleaned /\
  exists years,
    Layout.year_marks Scenario.cleaned
    = Some (map (fun z => (Python.str z, Python.str z)) years) /\
    StronglySorted Z.lt years /\
    forall z, In z years <-> exists r, In r Scenario.cleaned /\ year_is r z.
Proof.
  split.
  - reflexivity.
  - apply (year_marks_cleaned DecimalFloat.float Scenario.raw 2000). reflexivity.
Defined.

(** X20: on a table that [clean_data] produced, selecting every option of
    both dropdowns and leaving the slider at its initial value selects the
    whole table. *)
Theorem select_everything
        (py_float : string -> option pyfloat)
        (raw : DataFrame) (threshold : Z) (df_cleaned : DataFrame)
        (s : Layout.RangeSlider) (genres ratings : list string) (lo hi : Q) :
  clean_data py_float raw threshold = Some df_cleaned ->
  Layout.year_range_filter df_cleaned = Some s ->
  Layout.slider_value s = (Some lo, Some hi) ->
  (forall o, In o (Layout.options (Layout.genres_filter df_cleaned)) ->
             exists g, Layout.value o = Some g /\ In g genres) ->
  (forall o, In o (Layout.options (Layout.ratings_filter df_cleaned)) ->
             exists a, Layout.value o = Some a /\ In a ratings) ->
  filtered_df df_cleaned genres ratings (lo, hi) = df_cleaned.
Proof.
  intros H Hs Hv Hg Ha.
  assert (Hrows := clean_data_shape _ _ _ _ H). rewrite Forall_forall in Hrows.
  destruct (year_range_filter_bounds _ _ Hs) as [Hval Hb].
  apply filter_fixed, Forall_forall. intros r Hr. apply mask_spec.
  destruct (Hrows r Hr) as [_ [[_ [[g Eg] [[a Ea] _]]] _]].
  split; [|split].
  - destruct (Hg (Layout.mkOption (Some g) (Some g))) as [g' [[= <-] Hg']].
    { apply dropdown_options_spec. simpl. split; [reflexivity|].
      rewrite <- Eg. apply in_map. exact Hr. }
    exists g. auto.
  - destruct (Ha (Layout.mkOption (Some a) (Some a))) as [a' [[= <-] Ha']].
    { apply dropdown_options_spec. simpl. split; [reflexivity|].
      rewrite <- Ea. apply in_map. exact Hr. }
    exists a. auto.
  - destruct Hb as [lo' [hi' [Hlo [Hhi [_ [_ Hall]]]]]].
    { intros ->. contradiction. }
    rewrite Hv in Hval. injection Hval as Hmin Hmax.
    rewrite <- Hmin in Hlo. rewrite <- Hmax in Hhi.
    injection Hlo as <-. injection Hhi as <-.
    exact (Hall r Hr).
Qed.

Lemma select_everything_witness :
  clean_data DecimalFloat.float Scenario.raw 2000 = Some Scenario.cleaned /\
  filtered_df Scenario.cleaned ["Action"; "RPG"]%string ["E"; "M"]%string
              (2005 # 1, 2010 # 1)%Q
  = Scenario.cleaned.
Proof.
  split.
  - reflexivity.
  - apply (select_everything DecimalFloat.float Scenario.raw 2000 Scenario.cleaned
             (Layout.mkRangeSlider (Some (2005 # 1)%Q) (Some (2010 # 1)%Q)
                (Some (2005 # 1)%Q, Some (2010 # 1)%Q) 1
                [("2005", "2005"); ("2010", "2010")]%string)).
    + reflexivity.
    + reflexivity.
    + reflexivity.
    + intros o [<-|[<-|[]]]; eexists; (split; [reflexivity|]); simpl; auto.
    + intros o [<-|[<-|[]]]; eexists; (split; [reflexivity|]); simpl; auto.
Defined.
